(** * Electoral-district outlook map: a model of [app.js]

    The page script keeps a handful of globals (candidate table, bounds
    tables, zoomed prefecture, selected layer) and reacts to map and
    dropdown events.  The development below embeds those functions as
    Rocq functions over an explicit state and proves the properties of
    the selection and zoom logic, of the bounds index, of the outlook
    lookup and of the panel rendering. *)

From stdpp Require Import gmap strings list fin_maps pretty sorting.
From Stdlib Require Import QArith Qminmax Ascii.

Close Scope Q_scope.
Local Open Scope string_scope.
Local Open Scope list_scope.
Local Open Scope Z_scope.

(** ** JavaScript values

    Feature properties and table fields are primitives read from JSON:
    integers and strings, plus [undefined] for a missing field and
    [null] for the unset [currentPrefecture].  On these values the strict
    comparison [===] is plain equality. *)

Inductive value : Type :=
  | VUndefined
  | VNull
  | VNum (n : Z)
  | VStr (s : string).

#[global] Instance value_eq_dec : EqDecision value.
Proof. solve_decision. Defined.

(** [String(v)], which is also the property key [obj[v]] looks up. *)
Definition String_ (v : value) : string :=
  match v with
  | VUndefined => "undefined"
  | VNull => "null"
  | VNum n => pretty n
  | VStr s => s
  end.

(** [a || b] where the operands are strings or [undefined]. *)
Definition js_or (a b : option string) : option string :=
  match a with
  | Some s => if bool_decide (s = "") then b else a
  | None => b
  end.

(** [a || b] where [b] is a string. *)
Definition or_else (a : option string) (b : string) : string :=
  match a with
  | Some s => if bool_decide (s = "") then b else s
  | None => b
  end.

Definition dq : string := String "034"%char "".
Definition nl : string := String "010"%char "".

(** ** Constant tables *)

Definition PREFECTURE_NAMES : gmap string string :=
  list_to_map
    [("1", "北海道"); ("2", "青森"); ("3", "岩手"); ("4", "宮城"); ("5", "秋田");
     ("6", "山形"); ("7", "福島"); ("8", "茨城"); ("9", "栃木"); ("10", "群馬");
     ("11", "埼玉"); ("12", "千葉"); ("13", "東京"); ("14", "神奈川"); ("15", "新潟");
     ("16", "富山"); ("17", "石川"); ("18", "福井"); ("19", "山梨"); ("20", "長野");
     ("21", "岐阜"); ("22", "静岡"); ("23", "愛知"); ("24", "三重"); ("25", "滋賀");
     ("26", "京都"); ("27", "大阪"); ("28", "兵庫"); ("29", "奈良"); ("30", "和歌山");
     ("31", "鳥取"); ("32", "島根"); ("33", "岡山"); ("34", "広島"); ("35", "山口");
     ("36", "徳島"); ("37", "香川"); ("38", "愛媛"); ("39", "高知"); ("40", "福岡");
     ("41", "佐賀"); ("42", "長崎"); ("43", "熊本"); ("44", "大分"); ("45", "宮崎");
     ("46", "鹿児島"); ("47", "沖縄")].

Definition OUTLOOK_COLORS : gmap string string :=
  list_to_map
    [("5", "#2563eb"); ("4", "#60a5fa"); ("3", "#9333ea");
     ("2", "#f472b6"); ("1", "#dc2626")].

Definition OUTLOOK_LABELS : gmap string string :=
  list_to_map
    [("5", "安定"); ("4", "優勢"); ("3", "接戦"); ("2", "劣勢"); ("1", "厳しい")].

(** ** Leaflet values the script handles

    Coordinates are finite doubles; the only arithmetic applied to them
    is [Math.min] and [Math.max], which are exact, so rationals carry
    them faithfully. *)

Record LatLng : Type := mkLatLng { lat : Q; lng : Q }.

Record Corners : Type := mkCorners { southWest : LatLng; northEast : LatLng }.

(** A [LatLngBounds] object; [None] is the object [L.latLngBounds()]
    returns before it has been extended. *)
Abbreviation LatLngBounds := (option Corners).

Definition JAPAN_CENTER : LatLng := mkLatLng 37.0%Q 138.5%Q.
Definition JAPAN_ZOOM : Z := 7.
Definition JAPAN_BOUNDS : Corners :=
  mkCorners (mkLatLng 24.0%Q 119.5%Q) (mkLatLng 46.0%Q 150.5%Q).

(** [bounds.extend(other)]: an unset argument is ignored, an unset
    receiver takes the argument's corners, otherwise the corners move
    outwards. *)
Definition extend (this other : LatLngBounds) : LatLngBounds :=
  match other with
  | None => this
  | Some c2 =>
      match this with
      | None => Some c2
      | Some c =>
          Some (mkCorners
                  (mkLatLng (Qmin (lat (southWest c2)) (lat (southWest c)))
                            (Qmin (lng (southWest c2)) (lng (southWest c))))
                  (mkLatLng (Qmax (lat (northEast c2)) (lat (northEast c)))
                            (Qmax (lng (northEast c2)) (lng (northEast c)))))
      end
  end.

Definition point_bounds (p : LatLng) : LatLngBounds := Some (mkCorners p p).

(** Path options touched by the script.  [fillColor] is [None] when the
    style function hands Leaflet [undefined]. *)
Record PathStyle : Type := mkStyle {
  fillColor : option string;
  weight : Z;
  opacity : Z;
  color : string;
  fillOpacity : Q
}.

(** The calls the script makes on the map object. *)
Inductive MapCall : Type :=
  | setView (center : LatLng) (zoom : Z)
  | fitBounds (bounds : LatLngBounds) (padding : Z * Z) (maxZoom : Z).

(** ** Data model *)

Record Candidate : Type := mkCandidate {
  cand_name : string;
  party : string;
  status : string
}.

(** A value of the candidate table.  [candidates] is [None] when the
    record has no such field. *)
Record CandidateRecord : Type := mkRecord {
  name : string;
  outlook : value;
  candidates : option (list Candidate)
}.

(** A GeoJSON feature with its properties.  [ku] is only printed and
    passed to [parseInt]; the model keeps its integer value.  [geometry]
    lists the vertices of the polygon or multipolygon (every feature has
    one, so [L.geoJSON] makes a layer for it). *)
Record Feature : Type := mkFeature {
  ken : value;
  ku : Z;
  kucode : value;
  geometry : list LatLng
}.

(** [L.geoJSON(feature).getBounds()] and [layer.getBounds()]. *)
Definition getBounds (f : Feature) : LatLngBounds :=
  foldl (λ b p, extend b (point_bounds p)) None (geometry f).

(** ** Page state

    The globals of the script and the parts of the document it writes.
    A layer is identified by its position in the feature collection:
    [L.geoJSON] creates one layer per feature, in order. *)

(** What [showDistrictInfo] writes into the side panel.  The badge text
    is the value assigned to [textContent], [None] for [undefined]. *)
Record Panel : Type := mkPanel {
  districtName_textContent : string;
  outlookBadge_textContent : option string;
  outlookBadge_className : string;
  candidatesList_innerHTML : string
}.

(** The sidebar: its content, and the [open] / [visible] classes of the
    sidebar and the overlay. *)
Record Sidebar : Type := mkSidebar {
  panel : Panel;
  sidebar_open : bool;
  overlay_visible : bool
}.

(** The two dropdowns: chosen prefecture value, and the district
    dropdown's options (value, text) after its placeholder, its
    [disabled] attribute and its chosen value. *)
Record Selectors : Type := mkSelectors {
  prefectureSelect_value : string;
  districtSelect_options : list (string * string);
  districtSelect_disabled : bool;
  districtSelect_value : string
}.

Record State : Type := mkState {
  layerStyles : list PathStyle;   (* options of each layer *)
  paneOrder : list nat;           (* drawing order, front last *)
  mapCalls : list MapCall;        (* calls on [map], latest first *)
  currentPrefecture : value;
  selectedLayer : option nat;
  sidebar : Sidebar;
  selectors : Selectors
}.

Definition with_layerStyles (l : list PathStyle) (s : State) : State :=
  mkState l (paneOrder s) (mapCalls s) (currentPrefecture s)
          (selectedLayer s) (sidebar s) (selectors s).
Definition with_paneOrder (o : list nat) (s : State) : State :=
  mkState (layerStyles s) o (mapCalls s) (currentPrefecture s)
          (selectedLayer s) (sidebar s) (selectors s).
Definition with_mapCalls (c : list MapCall) (s : State) : State :=
  mkState (layerStyles s) (paneOrder s) c (currentPrefecture s)
          (selectedLayer s) (sidebar s) (selectors s).
Definition with_currentPrefecture (v : value) (s : State) : State :=
  mkState (layerStyles s) (paneOrder s) (mapCalls s) v
          (selectedLayer s) (sidebar s) (selectors s).
Definition with_selectedLayer (l : option nat) (s : State) : State :=
  mkState (layerStyles s) (paneOrder s) (mapCalls s) (currentPrefecture s)
          l (sidebar s) (selectors s).
Definition with_sidebar (b : Sidebar) (s : State) : State :=
  mkState (layerStyles s) (paneOrder s) (mapCalls s) (currentPrefecture s)
          (selectedLayer s) b (selectors s).
Definition with_selectors (d : Selectors) (s : State) : State :=
  mkState (layerStyles s) (paneOrder s) (mapCalls s) (currentPrefecture s)
          (selectedLayer s) (sidebar s) d.

(** A call changes the view unless it is a fit to an unset bounds
    object: there [map.fitBounds] throws "Bounds are not valid." before
    it moves anything. *)
Definition changes_view (c : MapCall) : bool :=
  match c with
  | fitBounds None _ _ => false
  | _ => true
  end.

(** The view the map shows: that of the latest call that changed it, or
    the [center] and [zoom] options [initMap] created it with. *)
Definition viewport (s : State) : MapCall :=
  default (setView JAPAN_CENTER JAPAN_ZOOM)
          (head (List.filter changes_view (mapCalls s))).

(** How a call inside a handler ends: it returns, or it throws and the
    rest of the handler is skipped; either way with the state it has
    reached. *)
Inductive Completion : Type :=
  | Returns (s : State)
  | Throws (s : State).

Definition state_of (c : Completion) : State :=
  match c with
  | Returns s => s
  | Throws s => s
  end.

(** [map.fitBounds(bounds, {padding, maxZoom})]: the call is made, and
    throws when [bounds] is unset. *)
Definition map_fitBounds (bounds : LatLngBounds) (padding : Z * Z) (maxZoom : Z)
    (s : State) : Completion :=
  let s' := with_mapCalls (fitBounds bounds padding maxZoom :: mapCalls s) s in
  match bounds with
  | Some _ => Returns s'
  | None => Throws s'
  end.

(** [layer.setStyle({weight, opacity, color, fillOpacity})]: the fill
    colour is kept. *)
Definition restyle (w o : Z) (c : string) (fo : Q) (st : PathStyle) : PathStyle :=
  mkStyle (fillColor st) w o c fo.

Definition setStyle (i : nat) (w o : Z) (c : string) (fo : Q) (s : State) : State :=
  with_layerStyles (alter (restyle w o c fo) i (layerStyles s)) s.

(** [layer.bringToFront()]: the path becomes the last child of its pane. *)
Definition bringToFront (i : nat) (s : State) : State :=
  with_paneOrder (filter (λ j, j ≠ i) (paneOrder s) ++ [i]) s.

(** Entries collected by [updateDistrictSelect]. *)
Record District : Type := mkDistrict {
  d_code : value;
  d_name : string;
  d_ku : Z
}.

(** [array.sort((a, b) => a.ku - b.ku)]: a stable sort by [ku]. *)
Fixpoint insert_by_ku (d : District) (l : list District) : list District :=
  match l with
  | [] => [d]
  | e :: l' => if d_ku d <=? d_ku e then d :: l else e :: insert_by_ku d l'
  end.

Definition sort_by_ku (l : list District) : list District :=
  foldr insert_by_ku [] l.

(** ** The script, over the loaded data

    [CANDIDATES_DATA] is the table read from [candidates.json] and
    [features] the array [ELECTION_DATA.features]; both are assigned once
    and only read afterwards. *)

Section App.

Variable CANDIDATES_DATA : gmap string CandidateRecord.
Variable features : list Feature.

(** *** Geometry index: [calculateBounds] *)

(** The first loop: [table[key].push(feature)], creating the array on
    first use.  The tables are objects used as maps from [String(key)];
    names inherited from [Object.prototype] are not modelled. *)
Definition classify (key : Feature → value) (fs : list Feature)
  : gmap string (list Feature) :=
  foldl (λ m f, <[String_ (key f) := default [] (m !! String_ (key f)) ++ [f]]> m)
        ∅ fs.

(** The body of the second and third loops: a fresh bounds object
    extended by each feature of the group. *)
Definition group_bounds (fs : list Feature) : LatLngBounds :=
  foldl (λ b f, extend b (getBounds f)) None fs.

(** [calculateBounds(geojsonData)] on the global tables
    [(prefectureBounds, districtBounds)]: each key of a group table is
    assigned its bounds, other keys are left as they are. *)
Definition calculateBounds (fs : list Feature)
    (tables : gmap string LatLngBounds * gmap string LatLngBounds)
  : gmap string LatLngBounds * gmap string LatLngBounds :=
  let prefectureFeatures := classify ken fs in
  let districtFeatures := classify kucode fs in
  ((group_bounds <$> prefectureFeatures) ∪ tables.1,
   (group_bounds <$> districtFeatures) ∪ tables.2).

(** The tables after loading: both start as [{}]. *)
Definition prefectureBounds : gmap string LatLngBounds :=
  (calculateBounds features (∅, ∅)).1.
Definition districtBounds : gmap string LatLngBounds :=
  (calculateBounds features (∅, ∅)).2.

(** *** Outlook resolver: [getFeatureStyle] and the badge *)

(** [candidateData ? candidateData.outlook : 'competitive'] *)
Definition outlook_of (candidateData : option CandidateRecord) : value :=
  match candidateData with
  | Some d => outlook d
  | None => VStr "competitive"
  end.

Definition getFeatureStyle (feature : Feature) : PathStyle :=
  let kucode := String_ (kucode feature) in
  let candidateData := CANDIDATES_DATA !! kucode in
  let outlook := outlook_of candidateData in
  let color := js_or (OUTLOOK_COLORS !! String_ outlook)
                     (OUTLOOK_COLORS !! "competitive") in
  mkStyle color 1 1 "#ffffff" 0.6%Q.

(** *** Panel renderer: [getDistrictName] and [showDistrictInfo] *)

Definition getDistrictName (ken : value) (ku : Z) (kucode : value) : string :=
  match CANDIDATES_DATA !! String_ kucode with
  | Some candidateData => name candidateData
  | None =>
      let prefName :=
        or_else (PREFECTURE_NAMES !! String_ ken) ("県" +:+ String_ ken) in
      prefName +:+ pretty ku +:+ "区"
  end.

(** One card of the candidate list, as the template literal builds it. *)
Definition candidate_card (candidate : Candidate) : string :=
  nl +:+ "            <div class=" +:+ dq +:+ "candidate-card" +:+ dq +:+ ">" +:+
  nl +:+ "                <div class=" +:+ dq +:+ "candidate-name" +:+ dq +:+ ">"
     +:+ cand_name candidate +:+ "</div>" +:+
  nl +:+ "                <div class=" +:+ dq +:+ "candidate-info" +:+ dq +:+ ">" +:+
  nl +:+ "                    <span class=" +:+ dq +:+ "candidate-tag party" +:+ dq +:+ ">"
     +:+ party candidate +:+ "</span>" +:+
  nl +:+ "                    <span class=" +:+ dq +:+ "candidate-tag status-"
     +:+ (if bool_decide (status candidate = "現職") then "incumbent" else "new")
     +:+ dq +:+ ">" +:+ status candidate +:+ "</span>" +:+
  nl +:+ "                </div>" +:+
  nl +:+ "            </div>" +:+
  nl +:+ "        ".

(** The card shown when there is nothing to list. *)
Definition no_information_card : string :=
  nl +:+ "            <div class=" +:+ dq +:+ "candidate-card" +:+ dq +:+ ">" +:+
  nl +:+ "                <div class=" +:+ dq +:+ "candidate-name" +:+ dq
     +:+ " style=" +:+ dq +:+ "color: var(--text-secondary);" +:+ dq +:+ ">"
     +:+ "候補者情報がありません</div>" +:+
  nl +:+ "            </div>" +:+
  nl +:+ "        ".

(** The cards [showDistrictInfo] joins into [candidatesList.innerHTML]:
    the guard [candidateData && candidateData.candidates] holds as soon
    as the record has a [candidates] array, empty or not. *)
Definition candidate_cards (candidateData : option CandidateRecord) : list string :=
  match candidateData with
  | Some d =>
      match candidates d with
      | Some cs => candidate_card <$> cs
      | None => [no_information_card]
      end
  | None => [no_information_card]
  end.

Definition render_panel (ken : value) (ku : Z) (kucode : value) : Panel :=
  let districtName := getDistrictName ken ku kucode in
  let candidateData := CANDIDATES_DATA !! String_ kucode in
  let outlook := outlook_of candidateData in
  mkPanel districtName
          (OUTLOOK_LABELS !! String_ outlook)
          ("outlook-badge " +:+ String_ outlook)
          (String.concat "" (candidate_cards candidateData)).

Definition showDistrictInfo (ken : value) (ku : Z) (kucode : value) (s : State) : State :=
  with_sidebar (mkSidebar (render_panel ken ku kucode) true true) s.

(** *** Selection and zoom: the handlers *)

(** [geojsonLayer.resetStyle(layer)]: the layer gets the style
    [getFeatureStyle] computes for its feature. *)
Definition reset_at (i : nat) (l : list PathStyle) : list PathStyle :=
  match features !! i with
  | Some feature => <[i := getFeatureStyle feature]> l
  | None => l
  end.

Definition resetStyle (i : nat) (s : State) : State :=
  with_layerStyles (reset_at i (layerStyles s)) s.

Definition handleMouseOver (i : nat) (s : State) : State :=
  bringToFront i (setStyle i 2 1 "#ffffff" 0.85%Q s).

Definition handleMouseOut (i : nat) (s : State) : State :=
  if bool_decide (selectedLayer s = Some i) then s else resetStyle i s.

(** [if (bounds)] passes for every stored bounds object, set or unset;
    on an unset one the fit throws and [currentPrefecture] is not
    assigned. *)
Definition zoomToPrefecture (ken : value) (s : State) : Completion :=
  match prefectureBounds !! String_ ken with
  | Some bounds =>
      match map_fitBounds bounds (50, 50) 10 s with
      | Returns s1 => Returns (with_currentPrefecture ken s1)
      | Throws s1 => Throws s1
      end
  | None => Returns s
  end.

(** [handleDistrictClick(e, feature)] with [e.target] the layer [i] and
    [feature] its feature.  The test [selectedLayer !== feature] compares
    a layer with a feature, which are never the same object, so a
    selected layer is always reset here.  When the zoom throws, the
    handler ends there. *)
Definition handleDistrictClick (i : nat) (s : State) : State :=
  match features !! i with
  | Some feature =>
      match (if bool_decide (currentPrefecture s ≠ ken feature)
             then zoomToPrefecture (ken feature) s else Returns s) with
      | Returns s1 =>
          let s2 := match selectedLayer s1 with
                    | Some j => resetStyle j s1
                    | None => s1
                    end in
          let s3 := setStyle i 3 1 "#ffffff" 0.85%Q s2 in
          let s4 := with_selectedLayer (Some i) s3 in
          let s5 := bringToFront i s4 in
          showDistrictInfo (ken feature) (ku feature) (kucode feature) s5
      | Throws s1 => s1
      end
  | None => s
  end.

Definition closeSidebar (s : State) : State :=
  let s1 := with_sidebar (mkSidebar (panel (sidebar s)) false false) s in
  match selectedLayer s1 with
  | Some j => with_selectedLayer None (resetStyle j s1)
  | None => s1
  end.

Definition resetView (s : State) : State :=
  let s1 := with_mapCalls (setView JAPAN_CENTER JAPAN_ZOOM :: mapCalls s) s in
  let s2 := with_currentPrefecture VNull s1 in
  let s3 := match selectedLayer s2 with
            | Some j => with_selectedLayer None (resetStyle j s2)
            | None => s2
            end in
  let s4 := closeSidebar s3 in
  with_selectors (mkSelectors "" [] true "") s4.

(** The [Map] filled by [updateDistrictSelect]: the first feature of
    each code among those of the prefecture, in collection order. *)
Definition districtMap (kenCode : string) : list District :=
  foldl (λ m feature,
           if bool_decide (String_ (ken feature) = kenCode) then
             if bool_decide (Exists (λ d, d_code d = kucode feature) m) then m
             else m ++ [mkDistrict (kucode feature)
                                   (getDistrictName (ken feature) (ku feature) (kucode feature))
                                   (ku feature)]
           else m)
        [] features.

Definition updateDistrictSelect (kenCode : string) (s : State) : State :=
  let sortedDistricts := sort_by_ku (districtMap kenCode) in
  with_selectors
    (mkSelectors (prefectureSelect_value (selectors s))
                 ((λ district, (String_ (d_code district), d_name district)) <$> sortedDistricts)
                 false "")
    s.

(** The loop of [selectDistrictByCode]: the last layer whose feature
    carries exactly [kucode] (a string, compared with [===]). *)
Definition targetLayer (kucode_ : string) : option nat :=
  foldl (λ target '(i, feature),
           if bool_decide (kucode feature = VStr kucode_) then Some i else target)
        None (imap pair features).

(** When the fit to the layer's bounds throws, the layer is already
    selected, highlighted and in front, and the panel is not shown. *)
Definition selectDistrictByCode (kucode_ : string) (s : State) : State :=
  match targetLayer kucode_ with
  | Some i =>
      match features !! i with
      | Some targetFeature =>
          let s1 := match selectedLayer s with
                    | Some j => if bool_decide (j ≠ i) then resetStyle j s else s
                    | None => s
                    end in
          let s2 := with_selectedLayer (Some i) s1 in
          let s3 := setStyle i 3 1 "#ffffff" 0.85%Q s2 in
          let s4 := bringToFront i s3 in
          match map_fitBounds (getBounds targetFeature) (50, 50) 12 s4 with
          | Returns s5 =>
              showDistrictInfo (ken targetFeature) (ku targetFeature)
                               (kucode targetFeature) s5
          | Throws s5 => s5
          end
      | None => s
      end
  | None => s
  end.

(** The [change] listeners of the two dropdowns; the chosen value is
    already the dropdown's value when the listener runs. *)
Definition prefecture_change (kenCode : string) (s : State) : State :=
  let s0 := with_selectors
              (mkSelectors kenCode (districtSelect_options (selectors s))
                           (districtSelect_disabled (selectors s))
                           (districtSelect_value (selectors s))) s in
  if bool_decide (kenCode = "") then resetView s0
  else
    match zoomToPrefecture (VStr kenCode) s0 with
    | Returns s1 => updateDistrictSelect kenCode s1
    | Throws s1 => s1
    end.

Definition district_change (kucode_ : string) (s : State) : State :=
  let s0 := with_selectors
              (mkSelectors (prefectureSelect_value (selectors s))
                           (districtSelect_options (selectors s))
                           (districtSelect_disabled (selectors s))
                           kucode_) s in
  if bool_decide (kucode_ = "") then s0 else selectDistrictByCode kucode_ s0.

(** The [keydown] listener on the document. *)
Definition keydown (key : string) (s : State) : State :=
  if bool_decide (key = "Escape") then closeSidebar s else s.

(** *** Events and reachable states *)

Inductive Event : Type :=
  | LayerMouseOver (i : nat)
  | LayerMouseOut (i : nat)
  | LayerClick (i : nat)
  | PrefectureChange (value_ : string)
  | DistrictChange (value_ : string)
  | ResetClick
  | SidebarCloseClick
  | OverlayClick
  | KeyDown (key : string).

Definition step (s : State) (e : Event) : State :=
  match e with
  | LayerMouseOver i => if bool_decide (i < length features)%nat then handleMouseOver i s else s
  | LayerMouseOut i => if bool_decide (i < length features)%nat then handleMouseOut i s else s
  | LayerClick i => handleDistrictClick i s
  | PrefectureChange v => prefecture_change v s
  | DistrictChange v => district_change v s
  | ResetClick => resetView s
  | SidebarCloseClick => closeSidebar s
  | OverlayClick => closeSidebar s
  | KeyDown key => keydown key s
  end.

(** The state once loading has succeeded: every layer carries the style
    of its feature, nothing is zoomed or selected; the sidebar and the
    dropdowns are as the page markup has them. *)
Definition initial_state (sb : Sidebar) (sel : Selectors) : State :=
  mkState (getFeatureStyle <$> features)
          (seq 0 (length features))
          []
          VNull
          None
          sb
          sel.

Definition run (s : State) (es : list Event) : State := foldl step s es.

Inductive reachable : State → Prop :=
  | reachable_initial sb sel : reachable (initial_state sb sel)
  | reachable_step s e : reachable s → reachable (step s e).

(** A layer drawn with the style of a selected district. *)
Definition highlighted (st : PathStyle) : Prop := weight st = 3.

(** An event that selects the district of layer [i]: a click on that
    layer, or a dropdown choice that resolves to it.  A click reaches
    only a layer that is drawn, which takes a vertex. *)
Definition selects (e : Event) (i : nat) : Prop :=
  match e with
  | LayerClick j => j = i ∧ ∃ feature, features !! i = Some feature ∧ geometry feature ≠ []
  | DistrictChange v => v ≠ "" ∧ targetLayer v = Some i
  | _ => False
  end.

(** The styles after the selected layer, if any, has been reset. *)
Definition reset_selected (o : option nat) (l : list PathStyle) : list PathStyle :=
  match o with
  | Some j => reset_at j l
  | None => l
  end.

(** The invariant of the reachable states: one style per layer, fill
    colours as [getFeatureStyle] set them, and no layer highlighted but
    the selected one. *)
Definition only_highlighted (o : option nat) (l : list PathStyle) : Prop :=
  ∀ k st, l !! k = Some st → highlighted st → o = Some k.

Definition fills_kept (l : list PathStyle) : Prop :=
  ∀ k st f, l !! k = Some st → features !! k = Some f →
            fillColor st = fillColor (getFeatureStyle f).

Definition consistent (s : State) : Prop :=
  length (layerStyles s) = length features ∧
  fills_kept (layerStyles s) ∧
  only_highlighted (selectedLayer s) (layerStyles s).

(** What a user can tell of a state: everything but the history of map
    calls, of which only the resulting view shows. *)
Definition observe (s : State)
  : list PathStyle * list nat * MapCall * value * option nat * Sidebar * Selectors :=
  (layerStyles s, paneOrder s, viewport s, currentPrefecture s,
   selectedLayer s, sidebar s, selectors s).

End App.

(** ** Loading: the [DOMContentLoaded] handler *)

(** What [fetch('candidates.json')] gives: a rejected promise, or a
    response with its [ok] flag and the table its body parses to
    ([None] when [json()] rejects). *)
Inductive FetchResult : Type :=
  | FetchRejected
  | FetchResponse (ok : bool) (body : option (gmap string CandidateRecord)).

(** The world the page loads in; [ELECTION_DATA] is [None] when
    [election_data.js] did not define the global. *)
Record Environment : Type := mkEnvironment {
  candidates_json : FetchResult;
  ELECTION_DATA : option (list Feature)
}.

(** Errors thrown inside [loadElectionData]. *)
Inductive LoadError : Type :=
  | NetworkError
  | JsonSyntaxError
  | Thrown (message : string).

(** The globals and the wiring while the page initialises.
    [geojsonLayer] holds the features the layers were created for. *)
Record Page : Type := mkPage {
  map_created : bool;
  page_CANDIDATES_DATA : gmap string CandidateRecord;
  page_prefectureBounds : gmap string LatLngBounds;
  page_districtBounds : gmap string LatLngBounds;
  geojsonLayer : option (list Feature);
  console_error : list (string * LoadError);
  selectors_wired : bool;
  listeners_wired : bool
}.

(** The page before the handler runs. *)
Definition blank_page : Page :=
  mkPage false ∅ ∅ ∅ None [] false false.

Definition initMap (p : Page) : Page :=
  mkPage true (page_CANDIDATES_DATA p) (page_prefectureBounds p)
         (page_districtBounds p) (geojsonLayer p) (console_error p)
         (selectors_wired p) (listeners_wired p).

(** The [try] block of [loadElectionData]: the page it leaves, and the
    error it throws if any. *)
Definition loadElectionData_try (env : Environment) (p : Page) : Page * option LoadError :=
  match candidates_json env with
  | FetchRejected => (p, Some NetworkError)
  | FetchResponse ok body =>
      if negb ok then (p, Some (Thrown "candidates.json の読み込みに失敗しました"))
      else
        match body with
        | None => (p, Some JsonSyntaxError)
        | Some data =>
            let p1 := mkPage (map_created p) data (page_prefectureBounds p)
                             (page_districtBounds p) (geojsonLayer p) (console_error p)
                             (selectors_wired p) (listeners_wired p) in
            match ELECTION_DATA env with
            | None =>
                (p1, Some (Thrown "ELECTION_DATA が定義されていません。election_data.js を読み込んでください。"))
            | Some fs =>
                let tables := calculateBounds fs (page_prefectureBounds p1, page_districtBounds p1) in
                (mkPage (map_created p1) data tables.1 tables.2 (Some fs)
                        (console_error p1) (selectors_wired p1) (listeners_wired p1),
                 None)
            end
        end
  end.

(** [loadElectionData]: the [catch] clause logs the error and returns. *)
Definition loadElectionData (env : Environment) (p : Page) : Page :=
  match loadElectionData_try env p with
  | (p', Some error) =>
      mkPage (map_created p') (page_CANDIDATES_DATA p') (page_prefectureBounds p')
             (page_districtBounds p') (geojsonLayer p')
             (console_error p' ++ [("データの読み込みに失敗しました:", error)])
             (selectors_wired p') (listeners_wired p')
  | (p', None) => p'
  end.

Definition initSelectors (p : Page) : Page :=
  mkPage (map_created p) (page_CANDIDATES_DATA p) (page_prefectureBounds p)
         (page_districtBounds p) (geojsonLayer p) (console_error p)
         true (listeners_wired p).

Definition setupEventListeners (p : Page) : Page :=
  mkPage (map_created p) (page_CANDIDATES_DATA p) (page_prefectureBounds p)
         (page_districtBounds p) (geojsonLayer p) (console_error p)
         (selectors_wired p) true.

(** The handler: [initMap(); await loadElectionData(); initSelectors();
    setupEventListeners();]. *)
Definition DOMContentLoaded (env : Environment) (p : Page) : Page :=
  setupEventListeners (initSelectors (loadElectionData env (initMap p))).

(** Either source fails to load. *)
Definition load_fails (env : Environment) : Prop :=
  match candidates_json env with
  | FetchResponse true (Some _) => ELECTION_DATA env = None
  | _ => True
  end.

(** ** Vocabulary of the properties *)

(** Two end states agree on the highlight, the panel, the selection and
    the zoomed prefecture; the view of the map is left aside. *)
Definition same_end_state (s1 s2 : State) : Prop :=
  layerStyles s1 = layerStyles s2 ∧
  sidebar s1 = sidebar s2 ∧
  selectedLayer s1 = selectedLayer s2 ∧
  currentPrefecture s1 = currentPrefecture s2.

(** Initialisation stopped on a reported error, with nothing wired. *)
Definition aborted (p : Page) : Prop :=
  console_error p ≠ [] ∧ selectors_wired p = false ∧ listeners_wired p = false.

(** The calls that fit the view to a prefecture (zoom ceiling 10). *)
Definition is_prefecture_fit (c : MapCall) : bool :=
  match c with
  | fitBounds _ _ maxZoom => maxZoom =? 10
  | setView _ _ => false
  end.

Definition prefecture_fits (calls : list MapCall) : list MapCall :=
  List.filter is_prefecture_fit calls.

Definition inside (p : LatLng) (b : LatLngBounds) : Prop :=
  match b with
  | Some c =>
      (lat (southWest c) <= lat p)%Q ∧ (lat p <= lat (northEast c))%Q ∧
      (lng (southWest c) <= lng p)%Q ∧ (lng p <= lng (northEast c))%Q
  | None => False
  end.

(** [within inner outer]: the rectangle [inner] lies in [outer]; an
    unset [inner] (a feature without vertices) lies in anything. *)
Definition within (inner outer : LatLngBounds) : Prop :=
  match inner with
  | None => True
  | Some ci =>
      match outer with
      | Some co =>
          (lat (southWest co) <= lat (southWest ci))%Q ∧
          (lng (southWest co) <= lng (southWest ci))%Q ∧
          (lat (northEast ci) <= lat (northEast co))%Q ∧
          (lng (northEast ci) <= lng (northEast co))%Q
      | None => False
      end
  end.

(** ** Tooltips and mobile features *)

Section Mobile.

Variable CANDIDATES_DATA : gmap string CandidateRecord.
Variable features : list Feature.

(** The text [onEachFeature] binds as the tooltip of a layer. *)
Definition tooltip (feature : Feature) : string :=
  getDistrictName CANDIDATES_DATA (ken feature) (ku feature) (kucode feature).

(** The size of the window when an event is handled. *)
Record Window : Type := mkWindow { innerWidth : Z; innerHeight : Z }.

Definition isMobileSize (w : Window) : bool := innerWidth w <=? 480.

(** The [collapsed] class of the legend, the inline [transform] of the
    sidebar ([None] for the empty string, [Some d] for
    [translateY(d px)]) and the three variables of [setupSidebarSwipe].
    Touch coordinates are doubles; the model adds and subtracts them
    exactly, as the script does on whole pixels. *)
Record Mobile : Type := mkMobile {
  legend_collapsed : bool;
  sidebar_transform : option Q;
  startY : Q;
  currentY : Q;
  isDragging : bool
}.

(** [setupMobileFeatures], from the legend and sidebar as the markup has
    them: the legend is collapsed at once on a small window. *)
Definition setupMobileFeatures (w : Window) (collapsed : bool) (transform : option Q) : Mobile :=
  mkMobile (if isMobileSize w then true else collapsed) transform 0%Q 0%Q false.

(** The [click] listener of the legend title. *)
Definition legend_title_click (w : Window) (m : Mobile) : Mobile :=
  if isMobileSize w
  then mkMobile (negb (legend_collapsed m)) (sidebar_transform m)
                (startY m) (currentY m) (isDragging m)
  else m.

Definition handleResize (w : Window) (m : Mobile) : Mobile :=
  let c1 := if isMobileSize w && negb (legend_collapsed m)
            then true else legend_collapsed m in
  let c2 := if negb (isMobileSize w) && c1 then false else c1 in
  mkMobile c2 (sidebar_transform m) (startY m) (currentY m) (isDragging m).

(** The [touchstart] listener: [on_sidebar] tells whether the target is
    the sidebar itself, [top] is the top of its bounding rectangle. *)
Definition touchstart (on_sidebar : bool) (clientY top : Q) (m : Mobile) : Mobile :=
  if on_sidebar || negb (Qle_bool (top + 50)%Q clientY)
  then mkMobile (legend_collapsed m) (sidebar_transform m) clientY (currentY m) true
  else m.

Definition touchmove (w : Window) (clientY : Q) (m : Mobile) : Mobile :=
  if negb (isDragging m) then m
  else
    let deltaY := (clientY - startY m)%Q in
    let transform :=
      if negb (Qle_bool deltaY 0%Q) && isMobileSize w && (innerWidth w <? innerHeight w)
      then Some deltaY else sidebar_transform m in
    mkMobile (legend_collapsed m) transform (startY m) clientY (isDragging m).

(** The [touchend] listener, on the swipe variables and the page state. *)
Definition touchend (w : Window) (ms : Mobile * State) : Mobile * State :=
  let (m, s) := ms in
  if negb (isDragging m) then ms
  else
    let deltaY := (currentY m - startY m)%Q in
    let s' := if negb (Qle_bool deltaY 100%Q) && isMobileSize w
              then closeSidebar CANDIDATES_DATA features s else s in
    (mkMobile (legend_collapsed m) None (startY m) (currentY m) false, s').

End Mobile.

(** ** Further vocabulary *)

(** A bounds object is unset or has its south-west corner below and left
    of its north-east corner. *)
Definition well_formed (b : LatLngBounds) : Prop :=
  match b with
  | Some c =>
      (lat (southWest c) <= lat (northEast c))%Q ∧
      (lng (southWest c) <= lng (northEast c))%Q
  | None => True
  end.

(** The calls the script can make on the map: the whole-country view, a
    fit to the bounds stored for a prefecture, a fit to the bounds of a
    layer. *)
Definition expected_call (fs : list Feature) (c : MapCall) : Prop :=
  c = setView JAPAN_CENTER JAPAN_ZOOM ∨
  (∃ k b, prefectureBounds fs !! k = Some b ∧ c = fitBounds b (50, 50) 10) ∨
  (∃ f, f ∈ fs ∧ c = fitBounds (getBounds f) (50, 50) 12).

(** The overlay goes with the sidebar, the sidebar is open only when a
    layer is selected, and a selected layer that has a vertex has its
    panel open. *)
Definition panel_in_step (cd : gmap string CandidateRecord) (fs : list Feature)
    (s : State) : Prop :=
  overlay_visible (sidebar s) = sidebar_open (sidebar s) ∧
  (sidebar_open (sidebar s) = true → is_Some (selectedLayer s)) ∧
  (∀ i, selectedLayer s = Some i →
        ∃ f, fs !! i = Some f ∧
             (geometry f ≠ [] →
              sidebar_open (sidebar s) = true ∧
              panel (sidebar s) = render_panel cd (ken f) (ku f) (kucode f))).

(** ** A small data set on which the model is run *)

Definition tokyo1 : Feature :=
  mkFeature (VNum 13) 1 (VStr "13001")
            [mkLatLng 35.66%Q 139.70%Q; mkLatLng 35.72%Q 139.78%Q].
Definition tokyo2 : Feature :=
  mkFeature (VNum 13) 2 (VStr "13002")
            [mkLatLng 35.60%Q 139.62%Q; mkLatLng 35.68%Q 139.74%Q].
Definition kanagawa1 : Feature :=
  mkFeature (VNum 14) 1 (VStr "14001") [mkLatLng 35.44%Q 139.64%Q].

Definition example_features : list Feature := [tokyo1; tokyo2; kanagawa1].

(** District 13001 has two candidates, 13002 an empty list, and 14001
    no record at all. *)
Definition example_candidates : gmap string CandidateRecord :=
  list_to_map
    [("13001", mkRecord "東京1区" (VNum 4)
                 (Some [mkCandidate "山田" "A党" "現職"; mkCandidate "鈴木" "B党" "新人"]));
     ("13002", mkRecord "東京2区" (VNum 2) (Some []))].

Definition markup_sidebar : Sidebar :=
  mkSidebar (mkPanel "" (Some "") "outlook-badge" "") false false.
Definition markup_selectors : Selectors := mkSelectors "" [] true "".

Definition example_initial : State :=
  initial_state example_candidates example_features markup_sidebar markup_selectors.

(** A feature without a vertex: the bounds of its layer stay unset. *)
Definition okinawa1 : Feature := mkFeature (VNum 47) 1 (VStr "47001") [].

Definition undrawn_features : list Feature := example_features ++ [okinawa1].

Definition undrawn_initial : State :=
  initial_state example_candidates undrawn_features markup_sidebar markup_selectors.

(** * Properties *)

(** ** The model on the data set *)

Example style_of_known_district :
  getFeatureStyle example_candidates tokyo1 = mkStyle (Some "#60a5fa") 1 1 "#ffffff" 0.6%Q.
Proof. reflexivity. Qed.

Example name_of_unknown_district :
  getDistrictName example_candidates (VNum 14) 1 (VStr "14001") = "神奈川1区".
Proof. reflexivity. Qed.

Example district_options_of_prefecture_13 :
  districtSelect_options
    (selectors (step example_candidates example_features example_initial
                     (PrefectureChange "13")))
  = [("13001", "東京1区"); ("13002", "東京2区")].
Proof. reflexivity. Qed.

Example click_from_idle_zooms_then_selects :
  let s := step example_candidates example_features example_initial (LayerClick 1) in
  currentPrefecture s = VNum 13 ∧
  selectedLayer s = Some 1%nat ∧
  mapCalls s = [fitBounds (prefectureBounds example_features !!! "13") (50, 50) 10] ∧
  sidebar_open (sidebar s) = true.
Proof. repeat split; reflexivity. Qed.

(** The fit to unset bounds throws: the prefecture handler ends before
    it records the prefecture and before it fills the district
    dropdown. *)
Example prefecture_of_undrawn_layer_throws :
  let s := step example_candidates undrawn_features undrawn_initial (PrefectureChange "47") in
  prefectureBounds undrawn_features !! "47" = Some None ∧
  mapCalls s = [fitBounds None (50, 50) 10] ∧
  viewport s = setView JAPAN_CENTER JAPAN_ZOOM ∧
  currentPrefecture s = VNull ∧
  selectors s = mkSelectors "47" [] true "".
Proof. repeat split; reflexivity. Qed.

(** The dropdown choice of a layer without a vertex selects and
    highlights the layer, then throws in the fit: the sidebar stays
    closed. *)
Example dropdown_on_undrawn_layer_leaves_sidebar :
  let s := step example_candidates undrawn_features undrawn_initial (DistrictChange "47001") in
  selectedLayer s = Some 3%nat ∧
  weight <$> layerStyles s !! 3%nat = Some 3 ∧
  mapCalls s = [fitBounds None (50, 50) 12] ∧
  viewport s = setView JAPAN_CENTER JAPAN_ZOOM ∧
  sidebar s = markup_sidebar.
Proof. repeat split; reflexivity. Qed.

(** ** Geometry index *)

Section Bounds.

Lemma within_refl (b : LatLngBounds) : within b b.
Proof. destruct b as [c|]; simpl; auto using Qle_refl. Qed.

Lemma within_trans (a b c : LatLngBounds) : within a b → within b c → within a c.
Proof.
  destruct a as [ca|], b as [cb|], c as [cc|]; simpl; try tauto.
  intros (H1 & H2 & H3 & H4) (K1 & K2 & K3 & K4).
  repeat split; eapply Qle_trans; eauto.
Qed.

Lemma extend_within_l (this other : LatLngBounds) : within this (extend this other).
Proof.
  destruct this as [c|], other as [c2|]; simpl; auto using Qle_refl.
  repeat split;
    auto using Q.le_min_r, Q.le_max_r.
Qed.

Lemma extend_within_r (this other : LatLngBounds) : within other (extend this other).
Proof.
  destruct this as [c|], other as [c2|]; simpl; auto using Qle_refl.
  repeat split;
    auto using Q.le_min_l, Q.le_max_l.
Qed.

Lemma inside_within (p : LatLng) (b : LatLngBounds) :
  inside p b ↔ within (point_bounds p) b.
Proof. destruct b as [c|]; simpl; tauto. Qed.

(** Folding [extend] keeps what the accumulator already covers ... *)
Lemma foldl_extend_acc {A} (g : A → LatLngBounds) (l : list A) (acc : LatLngBounds) :
  within acc (foldl (λ b x, extend b (g x)) acc l).
Proof.
  revert acc. induction l as [|x l IH]; intros acc; simpl.
  - apply within_refl.
  - eapply within_trans; [apply extend_within_l | apply IH].
Qed.

(** ... and covers every element folded in. *)
Lemma foldl_extend_elem {A} (g : A → LatLngBounds) (l : list A) (acc : LatLngBounds) (x : A) :
  x ∈ l → within (g x) (foldl (λ b x, extend b (g x)) acc l).
Proof.
  revert acc. induction l as [|y l IH]; intros acc Hx; simpl.
  - by apply elem_of_nil in Hx.
  - apply elem_of_cons in Hx as [->|Hx].
    + eapply within_trans; [apply extend_within_r | apply foldl_extend_acc].
    + by apply IH.
Qed.

Lemma inside_mono (p : LatLng) (inner outer : LatLngBounds) :
  inside p inner → within inner outer → inside p outer.
Proof.
  rewrite !inside_within. apply within_trans.
Qed.

Lemma getBounds_inside (f : Feature) (p : LatLng) :
  p ∈ geometry f → inside p (getBounds f).
Proof.
  intros Hp. apply inside_within.
  apply (foldl_extend_elem point_bounds (geometry f) None p Hp).
Qed.

Lemma getBounds_unset (f : Feature) : getBounds f = None ↔ geometry f = [].
Proof.
  unfold getBounds. destruct (geometry f) as [|p l]; [done|].
  split; [|done]. intros H.
  change (foldl (λ b q, extend b (point_bounds q)) (extend None (point_bounds p)) l = None)
    in H.
  pose proof (foldl_extend_acc point_bounds l (extend None (point_bounds p))) as Hw.
  rewrite H in Hw. destruct Hw.
Qed.

Lemma group_bounds_within (fs : list Feature) (f : Feature) :
  f ∈ fs → within (getBounds f) (group_bounds fs).
Proof. apply (foldl_extend_elem getBounds fs None f). Qed.

(** A single vertex gives the rectangle collapsed onto it. *)
Lemma getBounds_single_point (k : value) (n : Z) (c : value) (p : LatLng) :
  getBounds (mkFeature k n c [p]) = Some (mkCorners p p).
Proof. reflexivity. Qed.

(** The grouping loop, started from any table: a key already present
    stays present with its members, and every feature folded in is a
    member of the group of its key. *)
Lemma classify_foldl_keeps (key : Feature → value) (fs : list Feature)
    (m : gmap string (list Feature)) (k : string) (l : list Feature) (f : Feature) :
  m !! k = Some l → f ∈ l →
  ∃ l', foldl (λ m f, <[String_ (key f) := default [] (m !! String_ (key f)) ++ [f]]> m)
              m fs !! k = Some l' ∧ f ∈ l'.
Proof.
  revert m l. induction fs as [|g fs IH]; intros m l Hm Hf; simpl.
  - eauto.
  - destruct (decide (String_ (key g) = k)) as [<-|Hne].
    + eapply IH; [apply lookup_insert_eq|].
      rewrite Hm. simpl. apply elem_of_app. by left.
    + eapply IH; [|exact Hf]. by rewrite lookup_insert_ne.
Qed.

Lemma classify_foldl_elem (key : Feature → value) (fs : list Feature)
    (m : gmap string (list Feature)) (f : Feature) :
  f ∈ fs →
  ∃ l, foldl (λ m f, <[String_ (key f) := default [] (m !! String_ (key f)) ++ [f]]> m)
             m fs !! String_ (key f) = Some l ∧ f ∈ l.
Proof.
  revert m. induction fs as [|g fs IH]; intros m Hf; simpl.
  - by apply elem_of_nil in Hf.
  - apply elem_of_cons in Hf as [->|Hf].
    + eapply classify_foldl_keeps; [apply lookup_insert_eq|].
      apply elem_of_app. right. by apply list_elem_of_singleton.
    + by apply IH.
Qed.

Lemma classify_elem (key : Feature → value) (fs : list Feature) (f : Feature) :
  f ∈ fs → ∃ l, classify key fs !! String_ (key f) = Some l ∧ f ∈ l.
Proof. apply classify_foldl_elem. Qed.

(** Every feature's extent lies in the bounds indexed under its key. *)
Lemma indexed_bounds_within (key : Feature → value) (fs : list Feature) (f : Feature) :
  f ∈ fs →
  ∃ b, (group_bounds <$> classify key fs) !! String_ (key f) = Some b ∧
       within (getBounds f) b.
Proof.
  intros Hf. destruct (classify_elem key fs f Hf) as (l & Hl & Hfl).
  exists (group_bounds l). split.
  - by rewrite lookup_fmap, Hl.
  - by apply group_bounds_within.
Qed.

Lemma prefectureBounds_within (fs : list Feature) (f : Feature) :
  f ∈ fs →
  ∃ b, prefectureBounds fs !! String_ (ken f) = Some b ∧ within (getBounds f) b.
Proof.
  intros Hf. destruct (indexed_bounds_within ken fs f Hf) as (b & Hb & Hw).
  exists b. split; [|done].
  unfold prefectureBounds, calculateBounds. simpl.
  by rewrite (right_id_L ∅ (∪)).
Qed.

Lemma districtBounds_within (fs : list Feature) (f : Feature) :
  f ∈ fs →
  ∃ b, districtBounds fs !! String_ (kucode f) = Some b ∧ within (getBounds f) b.
Proof.
  intros Hf. destruct (indexed_bounds_within kucode fs f Hf) as (b & Hb & Hw).
  exists b. split; [|done].
  unfold districtBounds, calculateBounds. simpl.
  by rewrite (right_id_L ∅ (∪)).
Qed.

(** A feature with a vertex has its prefecture's bounds set. *)
Lemma prefectureBounds_set (fs : list Feature) (f : Feature) :
  f ∈ fs → geometry f ≠ [] →
  ∃ c, prefectureBounds fs !! String_ (ken f) = Some (Some c) ∧
       within (getBounds f) (Some c).
Proof.
  intros Hf Hg. destruct (prefectureBounds_within fs f Hf) as (b & Hb & Hw).
  destruct (getBounds f) as [cf|] eqn:Hgb.
  - destruct b as [c|]; [|destruct Hw]. exists c. by rewrite Hb.
  - by apply getBounds_unset in Hgb.
Qed.

End Bounds.

(** C9. Two features that share a prefecture id both lie inside the
    bounds computed for that id: every vertex of either is inside them,
    and so is the extent of either; likewise for two features that share
    a district code; an empty collection gives two empty tables. *)
Theorem calculateBounds_covers_groups (fs : list Feature) :
  (∀ F1 F2 k, F1 ∈ fs → F2 ∈ fs → String_ (ken F1) = k → String_ (ken F2) = k →
     ∃ b, prefectureBounds fs !! k = Some b ∧
          (∀ p, p ∈ geometry F1 → inside p b) ∧
          (∀ p, p ∈ geometry F2 → inside p b) ∧
          within (getBounds F1) b ∧ within (getBounds F2) b) ∧
  (∀ F1 F2 k, F1 ∈ fs → F2 ∈ fs → String_ (kucode F1) = k → String_ (kucode F2) = k →
     ∃ b, districtBounds fs !! k = Some b ∧
          (∀ p, p ∈ geometry F1 → inside p b) ∧
          (∀ p, p ∈ geometry F2 → inside p b) ∧
          within (getBounds F1) b ∧ within (getBounds F2) b) ∧
  calculateBounds [] (∅, ∅) = (∅, ∅).
Proof.
  split; [|split].
  - intros F1 F2 k H1 H2 K1 K2.
    destruct (prefectureBounds_within fs F1 H1) as (b & Hb & Hw1).
    destruct (prefectureBounds_within fs F2 H2) as (b' & Hb' & Hw2).
    rewrite K1 in Hb. rewrite K2 in Hb'. simplify_eq.
    exists b. repeat split; try done.
    + intros p Hp. eapply inside_mono; [by apply getBounds_inside | done].
    + intros p Hp. eapply inside_mono; [by apply getBounds_inside | done].
  - intros F1 F2 k H1 H2 K1 K2.
    destruct (districtBounds_within fs F1 H1) as (b & Hb & Hw1).
    destruct (districtBounds_within fs F2 H2) as (b' & Hb' & Hw2).
    rewrite K1 in Hb. rewrite K2 in Hb'. simplify_eq.
    exists b. repeat split; try done.
    + intros p Hp. eapply inside_mono; [by apply getBounds_inside | done].
    + intros p Hp. eapply inside_mono; [by apply getBounds_inside | done].
  - unfold calculateBounds, classify. simpl.
    by rewrite fmap_empty, (left_id_L ∅ (∪)).
Qed.

Lemma calculateBounds_covers_groups_witness :
  ∃ b, prefectureBounds example_features !! "13" = Some b ∧
       (∀ p, p ∈ geometry tokyo1 → inside p b) ∧
       (∀ p, p ∈ geometry tokyo2 → inside p b) ∧
       within (getBounds tokyo1) b ∧ within (getBounds tokyo2) b.
Proof.
  destruct (calculateBounds_covers_groups example_features) as [H _].
  apply (H tokyo1 tokyo2 "13").
  - apply list_elem_of_In. simpl. auto.
  - apply list_elem_of_In. simpl. auto.
  - reflexivity.
  - reflexivity.
Defined.

(** ** Selection and zoom *)

(** The dropdown loop returns a layer that carries the chosen code. *)
Lemma targetLayer_Some (fs : list Feature) (v : string) (i : nat) :
  targetLayer fs v = Some i →
  ∃ f, fs !! i = Some f ∧ kucode f = VStr v.
Proof.
  unfold targetLayer. revert i.
  induction fs as [|x fs IH] using rev_ind; intros i; simpl.
  - discriminate.
  - rewrite imap_app, foldl_app. simpl.
    case_bool_decide as Hx.
    + intros [= <-]. exists x. split; [|done].
      rewrite Nat.add_0_r. by apply list_lookup_middle.
    + intros Hi. destruct (IH i Hi) as (f & Hf & Hk).
      exists f. split; [|done]. by apply lookup_app_l_Some.
Qed.

Section Selection.

Context (cd : gmap string CandidateRecord) (fs : list Feature).

(** *** Style lists *)

Lemma length_reset_at (j : nat) (l : list PathStyle) :
  length (reset_at cd fs j l) = length l.
Proof. unfold reset_at. destruct (fs !! j); [apply length_insert | done]. Qed.

Lemma reset_at_lookup_ne (j k : nat) (l : list PathStyle) :
  j ≠ k → reset_at cd fs j l !! k = l !! k.
Proof.
  intros Hne. unfold reset_at. destruct (fs !! j); [|done].
  by apply list_lookup_insert_ne.
Qed.

Lemma reset_at_lookup_eq (j : nat) (f : Feature) (l : list PathStyle) :
  fs !! j = Some f → (j < length l)%nat →
  reset_at cd fs j l !! j = Some (getFeatureStyle cd f).
Proof.
  intros Hf Hj. unfold reset_at. rewrite Hf. by apply list_lookup_insert_eq.
Qed.

(** A reset layer is not highlighted, and has the fill of its feature. *)
Lemma reset_at_lookup (j k : nat) (st : PathStyle) (l : list PathStyle) :
  reset_at cd fs j l !! k = Some st →
  l !! k = Some st ∨ (j = k ∧ ∃ f, fs !! k = Some f ∧ st = getFeatureStyle cd f).
Proof.
  unfold reset_at. destruct (fs !! j) as [f|] eqn:Hf; [|by left].
  destruct (decide (j = k)) as [->|Hne].
  - intros Hk. pose proof (lookup_lt_Some _ _ _ Hk) as Hlt.
    rewrite length_insert in Hlt.
    rewrite list_lookup_insert_eq in Hk by done. simplify_eq. right. eauto.
  - rewrite list_lookup_insert_ne by done. by left.
Qed.

Lemma fills_kept_reset_at (j : nat) (l : list PathStyle) :
  fills_kept cd fs l → fills_kept cd fs (reset_at cd fs j l).
Proof.
  intros Hl k st f Hk Hf.
  destruct (reset_at_lookup _ _ _ _ Hk) as [Hk'|(-> & f' & Hf' & ->)].
  - by eapply Hl.
  - by simplify_eq.
Qed.

Lemma only_highlighted_reset_at (o : option nat) (j : nat) (l : list PathStyle) :
  only_highlighted o l → only_highlighted o (reset_at cd fs j l).
Proof.
  intros Hl k st Hk Hst.
  destruct (reset_at_lookup _ _ _ _ Hk) as [Hk'|(-> & f' & Hf' & ->)].
  - by eapply Hl.
  - discriminate Hst.
Qed.

(** Resetting the one layer that may be highlighted leaves none. *)
Lemma only_highlighted_reset_selected (j : nat) (l : list PathStyle) :
  length l = length fs →
  only_highlighted (Some j) l → only_highlighted None (reset_at cd fs j l).
Proof.
  intros Hlen Hl k st Hk Hst. exfalso.
  destruct (reset_at_lookup _ _ _ _ Hk) as [Hk'|(-> & f' & Hf' & ->)].
  - pose proof (Hl k st Hk' Hst) as [= ->].
    pose proof (lookup_lt_Some _ _ _ Hk') as Hlt.
    destruct (fs !! k) as [f|] eqn:Hf.
    + rewrite (reset_at_lookup_eq k f l Hf Hlt) in Hk. simplify_eq. discriminate Hst.
    + apply lookup_ge_None in Hf. lia.
  - discriminate Hst.
Qed.

Lemma only_highlighted_None (o : option nat) (l : list PathStyle) :
  only_highlighted None l → only_highlighted o l.
Proof. intros Hl k st Hk Hst. by pose proof (Hl k st Hk Hst). Qed.

Lemma alter_restyle_lookup (w o : Z) (c : string) (fo : Q) (i k : nat)
    (st : PathStyle) (l : list PathStyle) :
  alter (restyle w o c fo) i l !! k = Some st →
  (i ≠ k ∧ l !! k = Some st) ∨ (i = k ∧ ∃ st0, l !! k = Some st0 ∧ st = restyle w o c fo st0).
Proof.
  destruct (decide (i = k)) as [->|Hne].
  - rewrite list_lookup_alter_eq. destruct (l !! k) as [st0|]; simpl; [|done].
    intros [= <-]. right. eauto.
  - rewrite list_lookup_alter_ne by done. by left.
Qed.

Lemma fills_kept_restyle (w o : Z) (c : string) (fo : Q) (i : nat) (l : list PathStyle) :
  fills_kept cd fs l → fills_kept cd fs (alter (restyle w o c fo) i l).
Proof.
  intros Hl k st f Hk Hf.
  destruct (alter_restyle_lookup _ _ _ _ _ _ _ _ Hk) as [[_ Hk']|(-> & st0 & Hk' & ->)].
  - by eapply Hl.
  - simpl. by eapply Hl.
Qed.

Lemma only_highlighted_restyle_selected (w o : Z) (c : string) (fo : Q) (i : nat)
    (l : list PathStyle) :
  only_highlighted (Some i) l →
  only_highlighted (Some i) (alter (restyle w o c fo) i l).
Proof.
  intros Hl k st Hk Hst.
  destruct (alter_restyle_lookup _ _ _ _ _ _ _ _ Hk) as [[_ Hk']|(-> & st0 & Hk' & ->)].
  - by eapply Hl.
  - done.
Qed.

Lemma only_highlighted_hover (o' : option nat) (i : nat) (l : list PathStyle) :
  only_highlighted o' l →
  only_highlighted o' (alter (restyle 2 1 "#ffffff" 0.85%Q) i l).
Proof.
  intros Hl k st Hk Hst.
  destruct (alter_restyle_lookup _ _ _ _ _ _ _ _ Hk) as [[_ Hk']|(-> & st0 & Hk' & ->)].
  - by eapply Hl.
  - discriminate Hst.
Qed.

(** Highlighting over a reset gives what highlighting alone gives, as
    long as the fill colours are those of the features. *)
Lemma restyle_after_reset (w o : Z) (c : string) (fo : Q) (i : nat) (l : list PathStyle) :
  fills_kept cd fs l →
  alter (restyle w o c fo) i (reset_at cd fs i l) = alter (restyle w o c fo) i l.
Proof.
  intros Hl. unfold reset_at. destruct (fs !! i) as [f|] eqn:Hf; [|done].
  apply list_eq. intros k. destruct (decide (i = k)) as [->|Hne].
  - rewrite !list_lookup_alter_eq.
    destruct (l !! k) as [st|] eqn:Hk.
    + rewrite list_lookup_insert_eq by (by eapply lookup_lt_Some). simpl.
      unfold restyle. by rewrite (Hl k st f Hk Hf).
    + rewrite list_insert_ge by (by apply lookup_ge_None). by rewrite Hk.
  - rewrite !list_lookup_alter_ne by done. by rewrite list_lookup_insert_ne.
Qed.



(** *** What each handler does to the state *)

Lemma length_reset_selected (o : option nat) (l : list PathStyle) :
  length (reset_selected cd fs o l) = length l.
Proof. destruct o; [apply length_reset_at | done]. Qed.

Lemma fills_kept_reset_selected (o : option nat) (l : list PathStyle) :
  fills_kept cd fs l → fills_kept cd fs (reset_selected cd fs o l).
Proof. destruct o; [apply fills_kept_reset_at | done]. Qed.

Lemma only_highlighted_reset_selected_opt (o : option nat) (l : list PathStyle) :
  length l = length fs →
  only_highlighted o l → only_highlighted None (reset_selected cd fs o l).
Proof. destruct o; [apply only_highlighted_reset_selected | done]. Qed.

Lemma zoomToPrefecture_cases (k : value) (s : State) :
  zoomToPrefecture fs k s =
    match prefectureBounds fs !! String_ k with
    | Some (Some c) =>
        Returns (with_currentPrefecture k
                   (with_mapCalls (fitBounds (Some c) (50, 50) 10 :: mapCalls s) s))
    | Some None =>
        Throws (with_mapCalls (fitBounds None (50, 50) 10 :: mapCalls s) s)
    | None => Returns s
    end.
Proof.
  unfold zoomToPrefecture. by destruct (prefectureBounds fs !! String_ k) as [[c|]|].
Qed.

Lemma zoomToPrefecture_frame (k : value) (s : State) :
  layerStyles (state_of (zoomToPrefecture fs k s)) = layerStyles s ∧
  paneOrder (state_of (zoomToPrefecture fs k s)) = paneOrder s ∧
  selectedLayer (state_of (zoomToPrefecture fs k s)) = selectedLayer s ∧
  sidebar (state_of (zoomToPrefecture fs k s)) = sidebar s ∧
  selectors (state_of (zoomToPrefecture fs k s)) = selectors s.
Proof.
  rewrite zoomToPrefecture_cases.
  by destruct (prefectureBounds fs !! String_ k) as [[c|]|].
Qed.

Lemma closeSidebar_spec (s : State) :
  closeSidebar cd fs s =
    mkState (reset_selected cd fs (selectedLayer s) (layerStyles s))
            (paneOrder s) (mapCalls s) (currentPrefecture s) None
            (mkSidebar (panel (sidebar s)) false false) (selectors s).
Proof. destruct s as [l o c p [j|] sb dd]; reflexivity. Qed.

Lemma resetView_spec (s : State) :
  resetView cd fs s =
    mkState (reset_selected cd fs (selectedLayer s) (layerStyles s))
            (paneOrder s) (setView JAPAN_CENTER JAPAN_ZOOM :: mapCalls s) VNull None
            (mkSidebar (panel (sidebar s)) false false) (mkSelectors "" [] true "").
Proof. destruct s as [l o c p [j|] sb dd]; reflexivity. Qed.

Lemma handleDistrictClick_spec (i : nat) (f : Feature) (s : State) :
  fs !! i = Some f →
  handleDistrictClick cd fs i s =
    match (if bool_decide (currentPrefecture s ≠ ken f)
           then zoomToPrefecture fs (ken f) s else Returns s) with
    | Returns z =>
        mkState (alter (restyle 3 1 "#ffffff" 0.85%Q) i
                       (reset_selected cd fs (selectedLayer s) (layerStyles s)))
                (filter (λ j, j ≠ i) (paneOrder s) ++ [i])
                (mapCalls z) (currentPrefecture z) (Some i)
                (mkSidebar (render_panel cd (ken f) (ku f) (kucode f)) true true)
                (selectors s)
    | Throws z => z
    end.
Proof.
  intros Hf. unfold handleDistrictClick. rewrite Hf, zoomToPrefecture_cases.
  destruct s as [l o c p [j|] sb dd]; simpl;
    (case_bool_decide;
     [destruct (prefectureBounds fs !! String_ (ken f)) as [[b|]|]|]);
    reflexivity.
Qed.

(** A click on a layer that has a vertex never throws: the bounds of its
    prefecture are set. *)
Lemma handleDistrictClick_drawn (i : nat) (f : Feature) (s : State) :
  fs !! i = Some f → geometry f ≠ [] →
  ∃ c, prefectureBounds fs !! String_ (ken f) = Some (Some c) ∧
       within (getBounds f) (Some c) ∧
       handleDistrictClick cd fs i s =
         mkState (alter (restyle 3 1 "#ffffff" 0.85%Q) i
                        (reset_selected cd fs (selectedLayer s) (layerStyles s)))
                 (filter (λ j, j ≠ i) (paneOrder s) ++ [i])
                 (if bool_decide (currentPrefecture s ≠ ken f)
                  then fitBounds (Some c) (50, 50) 10 :: mapCalls s
                  else mapCalls s)
                 (ken f) (Some i)
                 (mkSidebar (render_panel cd (ken f) (ku f) (kucode f)) true true)
                 (selectors s).
Proof.
  intros Hf Hg.
  destruct (prefectureBounds_set fs f) as (c & Hc & Hw);
    [by eapply list_elem_of_lookup_2 | done |].
  exists c. split; [done|]. split; [done|].
  rewrite (handleDistrictClick_spec i f s Hf), zoomToPrefecture_cases, Hc.
  case_bool_decide as Hcp; [done|].
  destruct (decide (currentPrefecture s = ken f)) as [->|]; [done | contradiction].
Qed.

Lemma selectDistrictByCode_spec (v : string) (i : nat) (f : Feature) (s : State) :
  targetLayer fs v = Some i → fs !! i = Some f → fills_kept cd fs (layerStyles s) →
  selectDistrictByCode cd fs v s =
    mkState (alter (restyle 3 1 "#ffffff" 0.85%Q) i
                   (reset_selected cd fs (selectedLayer s) (layerStyles s)))
            (filter (λ j, j ≠ i) (paneOrder s) ++ [i])
            (fitBounds (getBounds f) (50, 50) 12 :: mapCalls s)
            (currentPrefecture s) (Some i)
            (match getBounds f with
             | Some _ => mkSidebar (render_panel cd (ken f) (ku f) (kucode f)) true true
             | None => sidebar s
             end)
            (selectors s).
Proof.
  intros Ht Hf Hfill. unfold selectDistrictByCode, map_fitBounds. rewrite Ht, Hf.
  destruct s as [l o c p [j|] sb dd]; simpl in *.
  - case_bool_decide as Hj.
    + by destruct (getBounds f).
    + assert (j = i) as -> by (destruct (decide (j = i)); [done | contradiction]).
      unfold setStyle, showDistrictInfo. simpl.
      rewrite <- (restyle_after_reset 3 1 "#ffffff" 0.85%Q i l Hfill).
      by destruct (getBounds f).
  - by destruct (getBounds f).
Qed.

(** *** The invariant *)

Lemma consistent_initial (sb : Sidebar) (sel : Selectors) :
  consistent cd fs (initial_state cd fs sb sel).
Proof.
  split; [|split]; simpl.
  - apply length_fmap.
  - intros k st f Hk Hf. rewrite list_lookup_fmap, Hf in Hk.
    by injection Hk as <-.
  - intros k st Hk Hst. rewrite list_lookup_fmap in Hk.
    destruct (fs !! k); [|discriminate Hk].
    injection Hk as <-. discriminate Hst.
Qed.

Lemma consistent_frame (s s' : State) :
  layerStyles s' = layerStyles s → selectedLayer s' = selectedLayer s →
  consistent cd fs s → consistent cd fs s'.
Proof. unfold consistent. by intros -> ->. Qed.

Lemma consistent_deselect (s s' : State) :
  layerStyles s' = reset_selected cd fs (selectedLayer s) (layerStyles s) →
  selectedLayer s' = None →
  consistent cd fs s → consistent cd fs s'.
Proof.
  unfold consistent. intros -> -> (Hlen & Hfill & Honly).
  rewrite length_reset_selected.
  auto using fills_kept_reset_selected, only_highlighted_reset_selected_opt.
Qed.

Lemma consistent_select (i : nat) (s s' : State) :
  layerStyles s' = alter (restyle 3 1 "#ffffff" 0.85%Q) i
                         (reset_selected cd fs (selectedLayer s) (layerStyles s)) →
  selectedLayer s' = Some i →
  consistent cd fs s → consistent cd fs s'.
Proof.
  unfold consistent. intros -> -> (Hlen & Hfill & Honly).
  rewrite length_alter, length_reset_selected.
  split; [done|]. split.
  - by apply fills_kept_restyle, fills_kept_reset_selected.
  - apply only_highlighted_restyle_selected, only_highlighted_None.
    by apply only_highlighted_reset_selected_opt.
Qed.

Lemma consistent_step (s : State) (e : Event) :
  consistent cd fs s → consistent cd fs (step cd fs s e).
Proof.
  intros Hs. destruct e as [i|i|i|v|v| | | |key]; simpl.
  - case_bool_decide; [|done]. destruct Hs as (Hlen & Hfill & Honly).
    split; [|split]; simpl.
    + by rewrite length_alter.
    + by apply fills_kept_restyle.
    + by apply only_highlighted_hover.
  - case_bool_decide; [|done]. unfold handleMouseOut.
    case_bool_decide; [done|]. destruct Hs as (Hlen & Hfill & Honly).
    split; [|split]; simpl.
    + by rewrite length_reset_at.
    + by apply fills_kept_reset_at.
    + by apply only_highlighted_reset_at.
  - destruct (fs !! i) as [f|] eqn:Hf.
    + rewrite (handleDistrictClick_spec i f s Hf).
      case_bool_decide; [|by eapply (consistent_select i s)].
      destruct (zoomToPrefecture_frame (ken f) s) as (Hl & _ & Hsel & _).
      destruct (zoomToPrefecture fs (ken f) s) as [z|z]; simpl in *.
      * by eapply (consistent_select i s).
      * by eapply (consistent_frame s).
    + unfold handleDistrictClick. by rewrite Hf.
  - unfold prefecture_change. set (s0 := with_selectors _ s).
    case_bool_decide.
    + rewrite resetView_spec. by eapply (consistent_deselect s).
    + destruct (zoomToPrefecture_frame (VStr v) s0) as (Hl & _ & Hsel & _).
      destruct (zoomToPrefecture fs (VStr v) s0) as [z|z]; simpl in *;
        (eapply (consistent_frame s); [| |done]; simpl; [by rewrite Hl | by rewrite Hsel]).
  - unfold district_change. case_bool_decide.
    + by eapply (consistent_frame s).
    + destruct (targetLayer fs v) as [i|] eqn:Ht.
      * destruct (targetLayer_Some fs v i Ht) as (f & Hf & _).
        rewrite (selectDistrictByCode_spec v i f _ Ht Hf) by apply Hs.
        by eapply (consistent_select i s).
      * unfold selectDistrictByCode. rewrite Ht. by eapply (consistent_frame s).
  - rewrite resetView_spec. by eapply (consistent_deselect s).
  - rewrite closeSidebar_spec. by eapply (consistent_deselect s).
  - rewrite closeSidebar_spec. by eapply (consistent_deselect s).
  - unfold keydown. case_bool_decide; [|done].
    rewrite closeSidebar_spec. by eapply (consistent_deselect s).
Qed.

Lemma reachable_consistent (s : State) :
  reachable cd fs s → consistent cd fs s.
Proof.
  induction 1 as [sb sel|s e _ IH].
  - apply consistent_initial.
  - by apply consistent_step.
Qed.

(** *** Selecting a district *)

Lemma district_change_spec (v : string) (i : nat) (f : Feature) (s : State) :
  v ≠ "" → targetLayer fs v = Some i → fs !! i = Some f →
  fills_kept cd fs (layerStyles s) →
  district_change cd fs v s =
    mkState (alter (restyle 3 1 "#ffffff" 0.85%Q) i
                   (reset_selected cd fs (selectedLayer s) (layerStyles s)))
            (filter (λ j, j ≠ i) (paneOrder s) ++ [i])
            (fitBounds (getBounds f) (50, 50) 12 :: mapCalls s)
            (currentPrefecture s) (Some i)
            (match getBounds f with
             | Some _ => mkSidebar (render_panel cd (ken f) (ku f) (kucode f)) true true
             | None => sidebar s
             end)
            (mkSelectors (prefectureSelect_value (selectors s))
                         (districtSelect_options (selectors s))
                         (districtSelect_disabled (selectors s)) v).
Proof.
  intros Hv Ht Hf Hfill. unfold district_change.
  rewrite bool_decide_eq_false_2 by done.
  by rewrite (selectDistrictByCode_spec v i f _ Ht Hf).
Qed.

(** A click on a district of the prefecture already recorded makes no
    call on the map. *)
Lemma handleDistrictClick_no_refit (i : nat) (f : Feature) (s : State) :
  fs !! i = Some f → currentPrefecture s = ken f →
  mapCalls (handleDistrictClick cd fs i s) = mapCalls s.
Proof.
  intros Hf Hc. rewrite (handleDistrictClick_spec i f s Hf).
  by rewrite bool_decide_eq_false_2 by (intros Hne; by apply Hne).
Qed.

Lemma getBounds_set (f : Feature) :
  geometry f ≠ [] → ∃ c, getBounds f = Some c.
Proof.
  intros Hg. destruct (getBounds f) as [c|] eqn:Hb; [by eexists|].
  by apply getBounds_unset in Hb.
Qed.

(** Whatever the route, selecting layer [i] resets the layer selected
    before, highlights [i] and brings it to the front; the panel is
    filled and opened unless the fit to the layer's bounds throws. *)
Lemma select_effect (s : State) (e : Event) (i : nat) :
  consistent cd fs s → selects fs e i →
  ∃ f, fs !! i = Some f ∧
       layerStyles (step cd fs s e) =
         alter (restyle 3 1 "#ffffff" 0.85%Q) i
               (reset_selected cd fs (selectedLayer s) (layerStyles s)) ∧
       paneOrder (step cd fs s e) = filter (λ j, j ≠ i) (paneOrder s) ++ [i] ∧
       selectedLayer (step cd fs s e) = Some i ∧
       sidebar (step cd fs s e) =
         match getBounds f with
         | Some _ => mkSidebar (render_panel cd (ken f) (ku f) (kucode f)) true true
         | None => sidebar s
         end.
Proof.
  intros Hs Hsel. destruct e as [j|j|j|v|v| | | |key]; simpl in Hsel; try done.
  - destruct Hsel as [-> (f & Hf & Hg)].
    destruct (handleDistrictClick_drawn i f s Hf Hg) as (c & _ & _ & E).
    destruct (getBounds_set f Hg) as [cf Hcf].
    exists f. simpl. rewrite E, Hcf. by simpl.
  - destruct Hsel as [Hv Ht].
    destruct (targetLayer_Some fs v i Ht) as (f & Hf & _).
    exists f. simpl. by rewrite (district_change_spec v i f s Hv Ht Hf) by apply Hs.
Qed.


(** C6. Selecting one district and then another leaves the second
    highlighted, the first back in the style of its feature and no other
    layer highlighted; and in every reachable state at most one layer is
    highlighted. *)
Theorem second_selection_replaces_first :
  (∀ s e1 e2 a b,
     reachable cd fs s → selects fs e1 a → selects fs e2 b → a ≠ b →
     let s' := step cd fs (step cd fs s e1) e2 in
     selectedLayer s' = Some b ∧
     (∃ st, layerStyles s' !! b = Some st ∧ highlighted st) ∧
     (∃ fa, fs !! a = Some fa ∧ layerStyles s' !! a = Some (getFeatureStyle cd fa)) ∧
     (∀ k st, layerStyles s' !! k = Some st → highlighted st → k = b)) ∧
  (∀ s, reachable cd fs s →
        ∀ j k stj stk,
          layerStyles s !! j = Some stj → highlighted stj →
          layerStyles s !! k = Some stk → highlighted stk → j = k).
Proof.
  split.
  - intros s e1 e2 a b Hr H1 H2 Hab s'.
    pose proof (reachable_consistent s Hr) as Hs.
    pose proof (consistent_step s e1 Hs) as Hs1.
    pose proof (consistent_step _ e2 Hs1) as Hs2. fold s' in Hs2.
    destruct (select_effect s e1 a Hs H1) as (fa & Hfa & _ & _ & Hsel1 & _).
    destruct (select_effect _ e2 b Hs1 H2) as (fb & Hfb & HL2 & _ & Hsel2 & _).
    fold s' in HL2, Hsel2. rewrite Hsel1 in HL2. simpl in HL2.
    destruct Hs1 as (Hlen1 & _ & _).
    assert (a < length (layerStyles (step cd fs s e1)))%nat as Ha
      by (rewrite Hlen1; by eapply lookup_lt_Some).
    assert (b < length (layerStyles (step cd fs s e1)))%nat as Hb
      by (rewrite Hlen1; by eapply lookup_lt_Some).
    split; [done|]. split; [|split].
    + destruct (lookup_lt_is_Some_2 _ _ Hb) as [st Hst].
      exists (restyle 3 1 "#ffffff" 0.85%Q st). split; [|done].
      rewrite HL2, list_lookup_alter_eq, reset_at_lookup_ne by done.
      by rewrite Hst.
    + exists fa. split; [done|].
      rewrite HL2, list_lookup_alter_ne by done.
      by apply reset_at_lookup_eq.
    + intros k st Hk Hst. destruct Hs2 as (_ & _ & Honly).
      rewrite Hsel2 in Honly. by pose proof (Honly k st Hk Hst) as [= ->].
  - intros s Hr j k stj stk Hj Hhj Hk Hhk.
    destruct (reachable_consistent s Hr) as (_ & _ & Honly).
    pose proof (Honly j stj Hj Hhj) as Ej.
    pose proof (Honly k stk Hk Hhk) as Ek.
    rewrite Ej in Ek. by injection Ek.
Qed.



(** C8. From every reachable state the reset control leads to the idle
    state: whole-country view, no zoomed prefecture, no selected layer,
    the layer that was selected back in the style of its feature and no
    layer highlighted, closed panel, both dropdowns cleared. *)
Theorem resetView_yields_idle (s : State) :
  reachable cd fs s →
  let s' := step cd fs s ResetClick in
  viewport s' = setView JAPAN_CENTER JAPAN_ZOOM ∧
  currentPrefecture s' = VNull ∧
  selectedLayer s' = None ∧
  (∀ j f, selectedLayer s = Some j → fs !! j = Some f →
          layerStyles s' !! j = Some (getFeatureStyle cd f)) ∧
  (∀ k st, layerStyles s' !! k = Some st → ¬ highlighted st) ∧
  sidebar_open (sidebar s') = false ∧
  overlay_visible (sidebar s') = false ∧
  selectors s' = mkSelectors "" [] true "".
Proof.
  intros Hr s'.
  pose proof (reachable_consistent s Hr) as (Hlen & _ & _).
  pose proof (reachable_consistent s' (reachable_step cd fs s ResetClick Hr))
    as (_ & _ & Honly).
  pose proof (resetView_spec s) as Es.
  change (resetView cd fs s) with s' in Es. clearbody s'. subst s'. simpl in *.
  repeat split; try done.
  - intros j f Hj Hf. rewrite Hj. simpl.
    apply reset_at_lookup_eq; [done|].
    rewrite Hlen. by eapply lookup_lt_Some.
  - intros k st Hk Hst. by pose proof (Honly k st Hk Hst).
Qed.

(** The three ways of dismissing the panel. *)
Lemma dismissal_is_closeSidebar (s : State) (e : Event) :
  e = SidebarCloseClick ∨ e = OverlayClick ∨ e = KeyDown "Escape" →
  step cd fs s e = closeSidebar cd fs s.
Proof. by intros [->|[->| ->]]. Qed.

(** C10. Dismissing the panel by the close button, the overlay or the
    Escape key closes it, resets the selected layer to the style of its
    feature and forgets the selection, and leaves the zoomed prefecture,
    the view of the map and the dropdowns as they were. *)
Theorem dismissal_clears_selection_only (s : State) (e : Event) :
  reachable cd fs s →
  e = SidebarCloseClick ∨ e = OverlayClick ∨ e = KeyDown "Escape" →
  let s' := step cd fs s e in
  selectedLayer s' = None ∧
  (∀ j f, selectedLayer s = Some j → fs !! j = Some f →
          layerStyles s' !! j = Some (getFeatureStyle cd f)) ∧
  (∀ k st, layerStyles s' !! k = Some st → ¬ highlighted st) ∧
  sidebar_open (sidebar s') = false ∧
  overlay_visible (sidebar s') = false ∧
  currentPrefecture s' = currentPrefecture s ∧
  mapCalls s' = mapCalls s ∧
  viewport s' = viewport s ∧
  selectors s' = selectors s.
Proof.
  intros Hr He s'.
  pose proof (reachable_consistent s Hr) as (Hlen & _ & _).
  pose proof (reachable_consistent s' (reachable_step cd fs s e Hr))
    as (_ & _ & Honly).
  pose proof (closeSidebar_spec s) as Es.
  rewrite <- (dismissal_is_closeSidebar s e He) in Es.
  change (step cd fs s e) with s' in Es. clearbody s'. subst s'. simpl in *.
  repeat split; try done.
  - intros j f Hj Hf. rewrite Hj. simpl.
    apply reset_at_lookup_eq; [done|].
    rewrite Hlen. by eapply lookup_lt_Some.
  - intros k st Hk Hst. by pose proof (Honly k st Hk Hst).
Qed.

(** C4, as the script has it.  For a layer that has a vertex, a click on
    it and the dropdown choice that resolves to it give the same layer
    styles, drawing order, selected layer and sidebar.  The click records
    the district's prefecture as the zoomed one and, unless that value
    was already recorded, fits the view to the bounds stored for the
    prefecture (zoom ceiling 10); the dropdown choice leaves the zoomed
    prefecture as it was and always fits the view to the bounds of that
    layer (zoom ceiling 12). *)
Theorem click_and_dropdown_agree (s : State) (v : string) (i : nat) (f : Feature) :
  reachable cd fs s → v ≠ "" → targetLayer fs v = Some i →
  fs !! i = Some f → geometry f ≠ [] →
  let sc := step cd fs s (LayerClick i) in
  let sd := step cd fs s (DistrictChange v) in
  layerStyles sc = layerStyles sd ∧
  paneOrder sc = paneOrder sd ∧
  selectedLayer sc = Some i ∧ selectedLayer sd = Some i ∧
  sidebar sc = sidebar sd ∧
  currentPrefecture sc = ken f ∧
  currentPrefecture sd = currentPrefecture s ∧
  (currentPrefecture s = ken f → mapCalls sc = mapCalls s) ∧
  (currentPrefecture s ≠ ken f →
   ∃ c, prefectureBounds fs !! String_ (ken f) = Some (Some c) ∧
        mapCalls sc = fitBounds (Some c) (50, 50) 10 :: mapCalls s ∧
        viewport sc = fitBounds (Some c) (50, 50) 10) ∧
  mapCalls sd = fitBounds (getBounds f) (50, 50) 12 :: mapCalls s ∧
  viewport sd = fitBounds (getBounds f) (50, 50) 12.
Proof.
  intros Hr Hv Ht Hf Hg sc sd.
  pose proof (reachable_consistent s Hr) as Hs.
  destruct (handleDistrictClick_drawn i f s Hf Hg) as (c & Hc & _ & Ec).
  pose proof (district_change_spec v i f s Hv Ht Hf (proj1 (proj2 Hs))) as Ed.
  destruct (getBounds_set f Hg) as [cf Hcf].
  change (handleDistrictClick cd fs i s) with sc in Ec.
  change (district_change cd fs v s) with sd in Ed.
  clearbody sc sd. subst sc sd. rewrite Hcf. unfold viewport. simpl.
  repeat split; try done.
  - intros Hcp. by rewrite bool_decide_eq_false_2 by (intros Hne; by apply Hne).
  - intros Hcp. exists c. by rewrite bool_decide_eq_true_2 by done.
Qed.

End Selection.

Lemma second_selection_replaces_first_witness :
  let s' := step example_candidates example_features
                 (step example_candidates example_features example_initial (LayerClick 0))
                 (DistrictChange "13002") in
  selectedLayer s' = Some 1%nat ∧
  (∃ st, layerStyles s' !! 1%nat = Some st ∧ highlighted st) ∧
  (∃ fa, example_features !! 0%nat = Some fa ∧
         layerStyles s' !! 0%nat = Some (getFeatureStyle example_candidates fa)) ∧
  (∀ k st, layerStyles s' !! k = Some st → highlighted st → k = 1%nat).
Proof.
  apply (proj1 (second_selection_replaces_first example_candidates example_features)).
  - apply reachable_initial.
  - simpl. split; [reflexivity|]. exists tokyo1. split; [reflexivity | discriminate].
  - simpl. split; [discriminate | reflexivity].
  - lia.
Defined.



Lemma resetView_yields_idle_witness :
  let s' := step example_candidates example_features
                 (step example_candidates example_features example_initial (LayerClick 0))
                 ResetClick in
  viewport s' = setView JAPAN_CENTER JAPAN_ZOOM ∧
  currentPrefecture s' = VNull ∧
  selectedLayer s' = None ∧
  (∀ j f, selectedLayer
            (step example_candidates example_features example_initial (LayerClick 0))
          = Some j →
          example_features !! j = Some f →
          layerStyles s' !! j = Some (getFeatureStyle example_candidates f)) ∧
  (∀ k st, layerStyles s' !! k = Some st → ¬ highlighted st) ∧
  sidebar_open (sidebar s') = false ∧
  overlay_visible (sidebar s') = false ∧
  selectors s' = mkSelectors "" [] true "".
Proof.
  apply (resetView_yields_idle example_candidates example_features).
  apply reachable_step. apply reachable_initial.
Defined.

Lemma dismissal_clears_selection_only_witness :
  let s := step example_candidates example_features example_initial (LayerClick 0) in
  let s' := step example_candidates example_features s (KeyDown "Escape") in
  selectedLayer s' = None ∧
  (∀ j f, selectedLayer s = Some j → example_features !! j = Some f →
          layerStyles s' !! j = Some (getFeatureStyle example_candidates f)) ∧
  (∀ k st, layerStyles s' !! k = Some st → ¬ highlighted st) ∧
  sidebar_open (sidebar s') = false ∧
  overlay_visible (sidebar s') = false ∧
  currentPrefecture s' = currentPrefecture s ∧
  mapCalls s' = mapCalls s ∧
  viewport s' = viewport s ∧
  selectors s' = selectors s.
Proof.
  apply (dismissal_clears_selection_only example_candidates example_features).
  - apply reachable_step. apply reachable_initial.
  - right. right. reflexivity.
Defined.

Lemma click_and_dropdown_agree_witness :
  let s := step example_candidates example_features example_initial (PrefectureChange "13") in
  let sc := step example_candidates example_features s (LayerClick 0) in
  let sd := step example_candidates example_features s (DistrictChange "13001") in
  layerStyles sc = layerStyles sd ∧
  paneOrder sc = paneOrder sd ∧
  selectedLayer sc = Some 0%nat ∧ selectedLayer sd = Some 0%nat ∧
  sidebar sc = sidebar sd ∧
  currentPrefecture sc = ken tokyo1 ∧
  currentPrefecture sd = currentPrefecture s ∧
  (currentPrefecture s = ken tokyo1 → mapCalls sc = mapCalls s) ∧
  (currentPrefecture s ≠ ken tokyo1 →
   ∃ c, prefectureBounds example_features !! String_ (ken tokyo1) = Some (Some c) ∧
        mapCalls sc = fitBounds (Some c) (50, 50) 10 :: mapCalls s ∧
        viewport sc = fitBounds (Some c) (50, 50) 10) ∧
  mapCalls sd = fitBounds (getBounds tokyo1) (50, 50) 12 :: mapCalls s ∧
  viewport sd = fitBounds (getBounds tokyo1) (50, 50) 12.
Proof.
  apply (click_and_dropdown_agree example_candidates example_features).
  - apply reachable_step. apply reachable_initial.
  - discriminate.
  - reflexivity.
  - reflexivity.
  - discriminate.
Defined.

(** The claim of C4 fails on the zoomed prefecture: after prefecture 13
    was chosen and a district of prefecture 14 clicked, clicking district
    13001 records prefecture 13 while choosing it in the dropdown keeps
    prefecture 14. *)
Lemma click_and_dropdown_differ :
  let s := run example_candidates example_features example_initial
               [PrefectureChange "13"; LayerClick 2] in
  targetLayer example_features "13001" = Some 0%nat ∧
  ¬ same_end_state (step example_candidates example_features s (LayerClick 0))
                   (step example_candidates example_features s (DistrictChange "13001")).
Proof.
  split; [reflexivity|].
  intros (_ & _ & _ & H). vm_compute in H. discriminate H.
Qed.

(** C5, on the data set: prefecture 13 is zoomed through the dropdown,
    which records the string "13"; a click on a district whose feature
    carries the number 13 then fits the view to the prefecture a second
    time. *)
Theorem click_after_dropdown_refits_prefecture :
  let s1 := step example_candidates example_features example_initial (PrefectureChange "13") in
  let s2 := step example_candidates example_features s1 (LayerClick 0) in
  ken tokyo1 = VNum 13 ∧
  currentPrefecture s1 = VStr "13" ∧
  ∃ b, prefectureBounds example_features !! "13" = Some b ∧
       mapCalls s1 = [fitBounds b (50, 50) 10] ∧
       mapCalls s2 = [fitBounds b (50, 50) 10; fitBounds b (50, 50) 10] ∧
       length (prefecture_fits (mapCalls s2)) = 2%nat.
Proof.
  split; [reflexivity|]. split; [reflexivity|].
  eexists. repeat split; reflexivity.
Qed.

(** ** Outlook resolver and panel *)

(** C1, as the script behaves: for a district code that is not in the
    candidate table the style has no fill colour and the badge no label
    (both lookups go through the key "competitive", which neither table
    has), where level 3 would give "#9333ea" and its label. *)
Theorem unknown_code_resolves_to_undefined
    (cd : gmap string CandidateRecord) (f : Feature) :
  cd !! String_ (kucode f) = None →
  fillColor (getFeatureStyle cd f) = None ∧
  outlookBadge_textContent (render_panel cd (ken f) (ku f) (kucode f)) = None ∧
  outlookBadge_className (render_panel cd (ken f) (ku f) (kucode f))
    = "outlook-badge competitive" ∧
  OUTLOOK_COLORS !! "3" = Some "#9333ea".
Proof.
  intros H. unfold getFeatureStyle, render_panel. rewrite H. simpl.
  repeat split; reflexivity.
Qed.

Lemma unknown_code_resolves_to_undefined_witness :
  fillColor (getFeatureStyle example_candidates kanagawa1) = None ∧
  outlookBadge_textContent
    (render_panel example_candidates (VNum 14) 1 (VStr "14001")) = None ∧
  outlookBadge_className
    (render_panel example_candidates (VNum 14) 1 (VStr "14001"))
    = "outlook-badge competitive" ∧
  OUTLOOK_COLORS !! "3" = Some "#9333ea".
Proof.
  apply (unknown_code_resolves_to_undefined example_candidates kanagawa1).
  reflexivity.
Defined.

(** C2, as the script has it: the list content is the cards joined; a
    missing record, or a record without a candidate list, gives exactly
    the one "no information" card; a record with a list gives one card
    per candidate in order. *)
Theorem panel_cards (cd : gmap string CandidateRecord) (k : value) (n : Z) (c : value) :
  candidatesList_innerHTML (render_panel cd k n c)
    = String.concat "" (candidate_cards (cd !! String_ c)) ∧
  ((cd !! String_ c = None ∨ ∃ d, cd !! String_ c = Some d ∧ candidates d = None) →
   candidate_cards (cd !! String_ c) = [no_information_card] ∧
   candidatesList_innerHTML (render_panel cd k n c) = no_information_card) ∧
  (∀ d cs, cd !! String_ c = Some d → candidates d = Some cs →
           candidate_cards (cd !! String_ c) = candidate_card <$> cs).
Proof.
  split; [reflexivity|]. split.
  - unfold render_panel. simpl.
    intros [-> | (d & -> & Hd)]; simpl; [|rewrite Hd]; split; reflexivity.
  - intros d cs -> Hd. simpl. by rewrite Hd.
Qed.

Lemma panel_cards_witness :
  candidate_cards (example_candidates !! "14001") = [no_information_card] ∧
  candidatesList_innerHTML (render_panel example_candidates (VNum 14) 1 (VStr "14001"))
    = no_information_card.
Proof.
  apply (proj1 (proj2 (panel_cards example_candidates (VNum 14) 1 (VStr "14001")))).
  left. reflexivity.
Defined.

(** The claim of C2 fails for an empty candidate list: district 13002
    has a record whose list is empty, and its panel shows no card at
    all. *)
Lemma empty_list_gives_no_placeholder :
  (∃ d, example_candidates !! "13002" = Some d ∧ candidates d = Some []) ∧
  candidate_cards (example_candidates !! "13002") = [] ∧
  candidate_cards (example_candidates !! "13002") ≠ [no_information_card] ∧
  candidatesList_innerHTML (render_panel example_candidates (VNum 13) 2 (VStr "13002")) = "".
Proof.
  split; [eexists; split; reflexivity|].
  split; [reflexivity|]. split; [|reflexivity].
  vm_compute. discriminate.
Qed.

(** ** Loading *)

(** C3, as the script has it: when either source fails to load, one
    error is logged, no layer is created and no bounds are computed, but
    the handler goes on: the map exists and the dropdowns and listeners
    are wired. *)
Theorem load_failure_is_logged_and_wiring_continues (env : Environment) :
  load_fails env →
  let p := DOMContentLoaded env blank_page in
  length (console_error p) = 1%nat ∧
  geojsonLayer p = None ∧
  page_prefectureBounds p = ∅ ∧
  page_districtBounds p = ∅ ∧
  map_created p = true ∧
  selectors_wired p = true ∧
  listeners_wired p = true.
Proof.
  destruct env as [[|[|] [data|]] [fs|]]; simpl; intros H; try discriminate H;
    repeat split; reflexivity.
Qed.

Lemma load_failure_is_logged_and_wiring_continues_witness :
  let p := DOMContentLoaded (mkEnvironment (FetchResponse false None) (Some example_features))
                            blank_page in
  length (console_error p) = 1%nat ∧
  geojsonLayer p = None ∧
  page_prefectureBounds p = ∅ ∧
  page_districtBounds p = ∅ ∧
  map_created p = true ∧
  selectors_wired p = true ∧
  listeners_wired p = true.
Proof.
  apply (load_failure_is_logged_and_wiring_continues
           (mkEnvironment (FetchResponse false None) (Some example_features))).
  exact I.
Defined.

(** The claim of C3 fails: with [candidates.json] answering 404 the
    error is logged, yet the dropdowns and the listeners are wired. *)
Lemma load_failure_does_not_abort :
  let env := mkEnvironment (FetchResponse false None) (Some example_features) in
  load_fails env ∧ ¬ aborted (DOMContentLoaded env blank_page).
Proof.
  split; [exact I|]. intros (_ & H & _). discriminate H.
Qed.

(** When both sources load, the layer is created over the features and
    the tables are those of [calculateBounds]. *)
Lemma load_success (data : gmap string CandidateRecord) (fs : list Feature) :
  let p := DOMContentLoaded (mkEnvironment (FetchResponse true (Some data)) (Some fs))
                            blank_page in
  console_error p = [] ∧
  page_CANDIDATES_DATA p = data ∧
  geojsonLayer p = Some fs ∧
  page_prefectureBounds p = prefectureBounds fs ∧
  page_districtBounds p = districtBounds fs.
Proof. repeat split; reflexivity. Qed.

(** * Further properties *)

(** ** The bounds tables *)

(** The group stored under a key is the list of the features with that
    key, in collection order; a key no feature has is absent. *)
Lemma classify_foldl_lookup (key : Feature → value) (fs : list Feature)
    (m : gmap string (list Feature)) (k : string) :
  foldl (λ m f, <[String_ (key f) := default [] (m !! String_ (key f)) ++ [f]]> m)
        m fs !! k
  = match filter (λ f, String_ (key f) = k) fs with
    | [] => m !! k
    | l => Some (default [] (m !! k) ++ l)
    end.
Proof.
  revert m. induction fs as [|g fs IH]; intros m; [done|].
  simpl. rewrite IH, filter_cons. case_decide as Hg.
  - subst k. rewrite lookup_insert_eq. simpl.
    destruct (filter _ fs) as [|x l]; [done|].
    by rewrite <- app_assoc.
  - by rewrite lookup_insert_ne.
Qed.

Lemma classify_lookup (key : Feature → value) (fs : list Feature) (k : string) :
  classify key fs !! k
  = match filter (λ f, String_ (key f) = k) fs with
    | [] => None
    | l => Some l
    end.
Proof. unfold classify. rewrite classify_foldl_lookup. by destruct (filter _ fs). Qed.

Lemma indexed_bounds_lookup (key : Feature → value) (fs : list Feature) (k : string) :
  ((group_bounds <$> classify key fs) ∪ ∅) !! k
  = match filter (λ f, String_ (key f) = k) fs with
    | [] => None
    | l => Some (group_bounds l)
    end.
Proof.
  rewrite (right_id_L ∅ (∪)), lookup_fmap, classify_lookup.
  by destruct (filter _ fs).
Qed.

Lemma filter_nil_iff (key : Feature → value) (fs : list Feature) (k : string) :
  filter (λ f, String_ (key f) = k) fs = [] ↔ ∀ f, f ∈ fs → String_ (key f) ≠ k.
Proof.
  split.
  - intros Hnil f Hf Hk.
    assert (f ∈ filter (λ f, String_ (key f) = k) fs) as Hin
      by (by apply list_elem_of_filter).
    rewrite Hnil in Hin. by apply elem_of_nil in Hin.
  - intros Hno. destruct (filter _ fs) as [|x l] eqn:Hl; [done|].
    assert (x ∈ filter (λ f, String_ (key f) = k) fs) as Hin
      by (rewrite Hl; apply elem_of_cons; by left).
    apply list_elem_of_filter in Hin as [Hk Hx]. by destruct (Hno x Hx).
Qed.

(** X1. A key has an entry in the prefecture table exactly when some
    feature carries it as [String(ken)], and in the district table
    exactly when some feature carries it as [String(kucode)]. *)
Theorem bounds_tables_keys (fs : list Feature) (k : string) :
  (is_Some (prefectureBounds fs !! k) ↔ ∃ f, f ∈ fs ∧ String_ (ken f) = k) ∧
  (is_Some (districtBounds fs !! k) ↔ ∃ f, f ∈ fs ∧ String_ (kucode f) = k).
Proof.
  unfold prefectureBounds, districtBounds, calculateBounds. simpl.
  rewrite !indexed_bounds_lookup.
  split.
  - destruct (filter _ fs) as [|x l] eqn:Hl.
    + split; [by intros [? ?]|]. intros (f & Hf & Hk).
      by destruct (proj1 (filter_nil_iff ken fs k) Hl f Hf).
    + split; [|by eauto]. intros _.
      assert (x ∈ filter (λ f, String_ (ken f) = k) fs) as Hin
        by (rewrite Hl; apply elem_of_cons; by left).
      apply list_elem_of_filter in Hin as [Hk Hx]. eauto.
  - destruct (filter _ fs) as [|x l] eqn:Hl.
    + split; [by intros [? ?]|]. intros (f & Hf & Hk).
      by destruct (proj1 (filter_nil_iff kucode fs k) Hl f Hf).
    + split; [|by eauto]. intros _.
      assert (x ∈ filter (λ f, String_ (kucode f) = k) fs) as Hin
        by (rewrite Hl; apply elem_of_cons; by left).
      apply list_elem_of_filter in Hin as [Hk Hx]. eauto.
Qed.

Lemma extend_least (this other outer : LatLngBounds) :
  within this outer → within other outer → within (extend this other) outer.
Proof.
  destruct this as [c|], other as [c2|], outer as [co|]; simpl; try tauto.
  intros (H1 & H2 & H3 & H4) (K1 & K2 & K3 & K4).
  repeat split;
    auto using Q.min_glb, Q.max_lub.
Qed.

Lemma foldl_extend_least {A} (g : A → LatLngBounds) (l : list A)
    (acc outer : LatLngBounds) :
  within acc outer → (∀ x, x ∈ l → within (g x) outer) →
  within (foldl (λ b x, extend b (g x)) acc l) outer.
Proof.
  revert acc. induction l as [|y l IH]; intros acc Hacc Hl; simpl; [done|].
  apply IH.
  - apply extend_least; [done|]. apply Hl, elem_of_cons. by left.
  - intros x Hx. apply Hl, elem_of_cons. by right.
Qed.

Lemma indexed_bounds_least (key : Feature → value) (fs : list Feature) (k : string)
    (b outer : LatLngBounds) :
  ((group_bounds <$> classify key fs) ∪ ∅) !! k = Some b →
  (∀ f, f ∈ fs → String_ (key f) = k → within (getBounds f) outer) →
  within b outer.
Proof.
  rewrite indexed_bounds_lookup. intros Hb Hall.
  destruct (filter _ fs) as [|x l] eqn:Hl; [done|].
  injection Hb as <-. apply foldl_extend_least; [done|].
  intros f Hf. rewrite <- Hl in Hf.
  apply list_elem_of_filter in Hf as [Hk Hf]. by apply Hall.
Qed.

(** X2. The bounds stored for a prefecture, and those stored for a
    district, are the smallest: they lie within every rectangle that
    contains the extents of all the features of that key. *)
Theorem bounds_tables_least (fs : list Feature) (k : string) (b outer : LatLngBounds) :
  (prefectureBounds fs !! k = Some b →
   (∀ f, f ∈ fs → String_ (ken f) = k → within (getBounds f) outer) →
   within b outer) ∧
  (districtBounds fs !! k = Some b →
   (∀ f, f ∈ fs → String_ (kucode f) = k → within (getBounds f) outer) →
   within b outer).
Proof.
  split.
  - apply (indexed_bounds_least ken).
  - apply (indexed_bounds_least kucode).
Qed.

Lemma bounds_tables_least_witness :
  within (Some (mkCorners (mkLatLng 35.60%Q 139.62%Q) (mkLatLng 35.72%Q 139.78%Q)))
         (Some JAPAN_BOUNDS).
Proof.
  apply (proj1 (bounds_tables_least example_features "13" _ (Some JAPAN_BOUNDS))).
  - reflexivity.
  - intros f Hf Hk.
    apply list_elem_of_In in Hf. simpl in Hf.
    destruct Hf as [<-|[<-|[<-|[]]]]; [| |discriminate Hk];
      vm_compute; repeat split; discriminate.
Defined.

Lemma extend_well_formed (this other : LatLngBounds) :
  well_formed this → well_formed other → well_formed (extend this other).
Proof.
  destruct this as [c|], other as [c2|]; simpl; try tauto.
  intros [H1 H2] [K1 K2]. split.
  - eapply Qle_trans; [apply Q.le_min_l|].
    eapply Qle_trans; [exact K1 | apply Q.le_max_l].
  - eapply Qle_trans; [apply Q.le_min_l|].
    eapply Qle_trans; [exact K2 | apply Q.le_max_l].
Qed.

Lemma foldl_extend_well_formed {A} (g : A → LatLngBounds) (l : list A)
    (acc : LatLngBounds) :
  well_formed acc → (∀ x, well_formed (g x)) →
  well_formed (foldl (λ b x, extend b (g x)) acc l).
Proof.
  revert acc. induction l as [|y l IH]; intros acc Hacc Hg; simpl; [done|].
  apply IH; [|done]. by apply extend_well_formed.
Qed.

Lemma getBounds_well_formed (f : Feature) : well_formed (getBounds f).
Proof.
  apply (foldl_extend_well_formed point_bounds); [done|].
  intros p. simpl. split; apply Qle_refl.
Qed.

(** X3. Every bounds object in either table is unset or has its
    south-west corner south and west of its north-east corner; the
    bounds of a single feature are unset exactly when it has no
    vertex. *)
Theorem bounds_tables_well_formed (fs : list Feature) (k : string) (b : LatLngBounds) :
  (prefectureBounds fs !! k = Some b → well_formed b) ∧
  (districtBounds fs !! k = Some b → well_formed b) ∧
  (∀ f, getBounds f = None ↔ geometry f = []).
Proof.
  unfold prefectureBounds, districtBounds, calculateBounds. simpl.
  rewrite !indexed_bounds_lookup.
  split; [|split].
  - destruct (filter _ fs); [done|]. intros [= <-].
    apply foldl_extend_well_formed; [done | apply getBounds_well_formed].
  - destruct (filter _ fs); [done|]. intros [= <-].
    apply foldl_extend_well_formed; [done | apply getBounds_well_formed].
  - apply getBounds_unset.
Qed.

Lemma bounds_tables_well_formed_witness :
  well_formed (Some (mkCorners (mkLatLng 35.60%Q 139.62%Q) (mkLatLng 35.72%Q 139.78%Q))).
Proof.
  apply (proj1 (bounds_tables_well_formed example_features "13" _)).
  reflexivity.
Defined.

Lemma bounds_tables_keys_witness :
  ∃ f, f ∈ example_features ∧ String_ (ken f) = "14".
Proof.
  apply (proj1 (proj1 (bounds_tables_keys example_features "14"))).
  vm_compute. eauto.
Defined.

(** ** Outlook levels *)

Lemma level_key (n : Z) :
  pretty n ∈ ["5"; "4"; "3"; "2"; "1"] → 1 ≤ n ≤ 5.
Proof.
  rewrite !elem_of_cons, elem_of_nil.
  change "5" with (pretty 5). change "4" with (pretty 4).
  change "3" with (pretty 3). change "2" with (pretty 2).
  change "1" with (pretty 1).
  intros [H|[H|[H|[H|[H|[]]]]]]; apply (inj pretty) in H; lia.
Qed.

Lemma OUTLOOK_COLORS_outside (n : Z) :
  n < 1 ∨ 5 < n → OUTLOOK_COLORS !! pretty n = None.
Proof.
  intros Hn. apply not_elem_of_list_to_map_1. simpl.
  intros Hin. apply level_key in Hin. lia.
Qed.

Lemma OUTLOOK_LABELS_outside (n : Z) :
  n < 1 ∨ 5 < n → OUTLOOK_LABELS !! pretty n = None.
Proof.
  intros Hn. apply not_elem_of_list_to_map_1. simpl.
  intros Hin. apply level_key in Hin. lia.
Qed.

(** X4. A district whose record carries an outlook level from 1 to 5 is
    filled with the colour of that level, and its panel badge shows the
    label of the same level and the level as class. *)
Theorem known_level_colour_and_label
    (cd : gmap string CandidateRecord) (f : Feature) (d : CandidateRecord) (n : Z) :
  cd !! String_ (kucode f) = Some d → outlook d = VNum n → 1 ≤ n ≤ 5 →
  ∃ c l,
    OUTLOOK_COLORS !! pretty n = Some c ∧
    OUTLOOK_LABELS !! pretty n = Some l ∧
    fillColor (getFeatureStyle cd f) = Some c ∧
    outlookBadge_textContent (render_panel cd (ken f) (ku f) (kucode f)) = Some l ∧
    outlookBadge_className (render_panel cd (ken f) (ku f) (kucode f))
      = "outlook-badge " +:+ pretty n.
Proof.
  intros Hd Ho Hn. unfold getFeatureStyle, render_panel. rewrite Hd. simpl. rewrite Ho.
  assert (n = 1 ∨ n = 2 ∨ n = 3 ∨ n = 4 ∨ n = 5) as [->|[->|[->|[->| ->]]]] by lia;
    do 2 eexists; repeat split; reflexivity.
Qed.

Lemma known_level_colour_and_label_witness :
  ∃ c l,
    OUTLOOK_COLORS !! pretty 4 = Some c ∧
    OUTLOOK_LABELS !! pretty 4 = Some l ∧
    fillColor (getFeatureStyle example_candidates tokyo1) = Some c ∧
    outlookBadge_textContent
      (render_panel example_candidates (ken tokyo1) (ku tokyo1) (kucode tokyo1)) = Some l ∧
    outlookBadge_className
      (render_panel example_candidates (ken tokyo1) (ku tokyo1) (kucode tokyo1))
      = "outlook-badge " +:+ pretty 4.
Proof.
  apply (known_level_colour_and_label example_candidates tokyo1
           (mkRecord "東京1区" (VNum 4)
              (Some [mkCandidate "山田" "A党" "現職"; mkCandidate "鈴木" "B党" "新人"])) 4).
  - reflexivity.
  - reflexivity.
  - lia.
Defined.

(** X5. A district whose record carries a number outside 1..5 as
    outlook, or no outlook at all, gets no fill colour and no badge
    label: the tables have no entry for it and the fallback key has
    none either. *)
Theorem other_level_undefined
    (cd : gmap string CandidateRecord) (f : Feature) (d : CandidateRecord) :
  cd !! String_ (kucode f) = Some d →
  (outlook d = VUndefined ∨ outlook d = VNull ∨
   ∃ n, outlook d = VNum n ∧ (n < 1 ∨ 5 < n)) →
  fillColor (getFeatureStyle cd f) = None ∧
  outlookBadge_textContent (render_panel cd (ken f) (ku f) (kucode f)) = None.
Proof.
  intros Hd Ho. unfold getFeatureStyle, render_panel. rewrite Hd. simpl.
  destruct Ho as [-> | [-> | (n & -> & Hn)]]; simpl.
  - split; reflexivity.
  - split; reflexivity.
  - rewrite OUTLOOK_COLORS_outside, OUTLOOK_LABELS_outside by done.
    split; reflexivity.
Qed.

Lemma other_level_undefined_witness :
  let cd : gmap string CandidateRecord :=
    {[ "13001" := mkRecord "東京1区" (VNum 0) None ]} in
  fillColor (getFeatureStyle cd tokyo1) = None ∧
  outlookBadge_textContent (render_panel cd (ken tokyo1) (ku tokyo1) (kucode tokyo1)) = None.
Proof.
  intros cd.
  apply (other_level_undefined cd tokyo1 (mkRecord "東京1区" (VNum 0) None)).
  - reflexivity.
  - right. right. exists 0. split; [reflexivity | lia].
Defined.

(** ** The district dropdown *)

Lemma insert_by_ku_perm (d : District) (l : list District) :
  insert_by_ku d l ≡ₚ d :: l.
Proof.
  induction l as [|e l IH]; simpl; [done|].
  case_match; [done|]. rewrite IH. apply Permutation_swap.
Qed.

Lemma sort_by_ku_perm (l : list District) : sort_by_ku l ≡ₚ l.
Proof.
  unfold sort_by_ku. induction l as [|d l IH]; simpl; [done|].
  by rewrite insert_by_ku_perm, IH.
Qed.

Lemma insert_by_ku_sorted (d : District) (l : list District) :
  StronglySorted (λ a b, d_ku a ≤ d_ku b) l →
  StronglySorted (λ a b, d_ku a ≤ d_ku b) (insert_by_ku d l).
Proof.
  induction 1 as [|e l Hl IH He]; simpl.
  - repeat constructor.
  - case_match eqn:Hle.
    + apply Z.leb_le in Hle. constructor; [by constructor|].
      constructor; [done|].
      eapply Forall_impl; [exact He|]. simpl. intros x Hx. lia.
    + apply Z.leb_gt in Hle. constructor; [done|].
      rewrite insert_by_ku_perm. constructor; [lia | done].
Qed.

Lemma sort_by_ku_sorted (l : list District) :
  StronglySorted (λ a b, d_ku a ≤ d_ku b) (sort_by_ku l).
Proof.
  unfold sort_by_ku. induction l as [|d l IH]; simpl; [constructor|].
  by apply insert_by_ku_sorted.
Qed.

Lemma insert_by_ku_filter (k : Z) (d : District) (l : list District) :
  filter (λ x, d_ku x = k) (insert_by_ku d l) = filter (λ x, d_ku x = k) (d :: l).
Proof.
  induction l as [|e l IH]; simpl; [done|].
  case_match eqn:Hle; [done|]. apply Z.leb_gt in Hle.
  rewrite (filter_cons _ e (insert_by_ku d l)), IH.
  rewrite (filter_cons _ d (e :: l)), (filter_cons _ d l), (filter_cons _ e l).
  repeat case_decide; try done; lia.
Qed.

Lemma sort_by_ku_stable (k : Z) (l : list District) :
  filter (λ x, d_ku x = k) (sort_by_ku l) = filter (λ x, d_ku x = k) l.
Proof.
  unfold sort_by_ku. induction l as [|d l IH]; simpl; [done|].
  rewrite insert_by_ku_filter, !filter_cons. by rewrite IH.
Qed.

(** X6. The district dropdown lists the districts collected for the
    prefecture in ascending [ku]; nothing is lost or added by the sort,
    and districts with the same [ku] keep their collection order. *)
Theorem district_options_sorted
    (cd : gmap string CandidateRecord) (fs : list Feature) (kenCode : string) (s : State) :
  let ds := sort_by_ku (districtMap cd fs kenCode) in
  districtSelect_options (selectors (updateDistrictSelect cd fs kenCode s))
    = (λ d, (String_ (d_code d), d_name d)) <$> ds ∧
  StronglySorted (λ a b, d_ku a ≤ d_ku b) ds ∧
  ds ≡ₚ districtMap cd fs kenCode ∧
  (∀ k, filter (λ d, d_ku d = k) ds
        = filter (λ d, d_ku d = k) (districtMap cd fs kenCode)).
Proof.
  split; [reflexivity|].
  split; [apply sort_by_ku_sorted|].
  split; [apply sort_by_ku_perm|].
  intros k. apply sort_by_ku_stable.
Qed.

(** The collecting loop of [updateDistrictSelect], from any list. *)
Lemma districtMap_foldl_origin
    (cd : gmap string CandidateRecord) (kenCode : string)
    (fs : list Feature) (m : list District) (d : District) :
  d ∈ foldl (λ m feature,
               if bool_decide (String_ (ken feature) = kenCode) then
                 if bool_decide (Exists (λ d, d_code d = kucode feature) m) then m
                 else m ++ [mkDistrict (kucode feature)
                              (getDistrictName cd (ken feature) (ku feature) (kucode feature))
                              (ku feature)]
               else m) m fs →
  d ∈ m ∨ ∃ f, f ∈ fs ∧ String_ (ken f) = kenCode ∧
               d = mkDistrict (kucode f) (getDistrictName cd (ken f) (ku f) (kucode f)) (ku f).
Proof.
  revert m. induction fs as [|g fs IH]; intros m; simpl; [by left|].
  intros Hd. apply IH in Hd as [Hd|(f & Hf & Hk & ->)].
  - repeat case_bool_decide; try by left.
    apply elem_of_app in Hd as [Hd|Hd]; [by left|].
    apply list_elem_of_singleton in Hd as ->.
    right. exists g. split; [apply elem_of_cons; by left | done].
  - right. exists f. split; [apply elem_of_cons; by right | done].
Qed.

Lemma districtMap_foldl_keeps
    (cd : gmap string CandidateRecord) (kenCode : string)
    (fs : list Feature) (m : list District) (d : District) :
  d ∈ m →
  d ∈ foldl (λ m feature,
               if bool_decide (String_ (ken feature) = kenCode) then
                 if bool_decide (Exists (λ d, d_code d = kucode feature) m) then m
                 else m ++ [mkDistrict (kucode feature)
                              (getDistrictName cd (ken feature) (ku feature) (kucode feature))
                              (ku feature)]
               else m) m fs.
Proof.
  revert m. induction fs as [|g fs IH]; intros m Hd; simpl; [done|].
  apply IH. repeat case_bool_decide; try done.
  apply elem_of_app. by left.
Qed.

Lemma districtMap_foldl_covers
    (cd : gmap string CandidateRecord) (kenCode : string)
    (fs : list Feature) (m : list District) (f : Feature) :
  f ∈ fs → String_ (ken f) = kenCode →
  ∃ d, d_code d = kucode f ∧
       d ∈ foldl (λ m feature,
               if bool_decide (String_ (ken feature) = kenCode) then
                 if bool_decide (Exists (λ d, d_code d = kucode feature) m) then m
                 else m ++ [mkDistrict (kucode feature)
                              (getDistrictName cd (ken feature) (ku feature) (kucode feature))
                              (ku feature)]
               else m) m fs.
Proof.
  revert m. induction fs as [|g fs IH]; intros m Hf Hk; simpl.
  - by apply elem_of_nil in Hf.
  - apply elem_of_cons in Hf as [->|Hf]; [|by apply IH].
    rewrite bool_decide_eq_true_2 by done.
    case_bool_decide as He.
    + apply Exists_exists in He as (d & Hd & Hc).
      exists d. split; [done|]. by apply districtMap_foldl_keeps.
    + eexists. split; [|apply districtMap_foldl_keeps, elem_of_app; right;
                         by apply list_elem_of_singleton].
      done.
Qed.

Lemma districtMap_foldl_NoDup
    (cd : gmap string CandidateRecord) (kenCode : string)
    (fs : list Feature) (m : list District) :
  NoDup (d_code <$> m) →
  NoDup (d_code <$>
         foldl (λ m feature,
               if bool_decide (String_ (ken feature) = kenCode) then
                 if bool_decide (Exists (λ d, d_code d = kucode feature) m) then m
                 else m ++ [mkDistrict (kucode feature)
                              (getDistrictName cd (ken feature) (ku feature) (kucode feature))
                              (ku feature)]
               else m) m fs).
Proof.
  revert m. induction fs as [|g fs IH]; intros m Hm; simpl; [done|].
  apply IH. repeat case_bool_decide; try done.
  rewrite fmap_app. simpl. apply NoDup_app. split; [done|].
  split; [|apply NoDup_singleton].
  intros c Hc Hc'. apply list_elem_of_singleton in Hc' as ->.
  apply list_elem_of_fmap in Hc as (d & Hd & Hin).
  match goal with H : ¬ Exists _ m |- _ => apply H end.
  apply Exists_exists. eauto.
Qed.

(** X7. After a prefecture is chosen the district dropdown is enabled
    with no district chosen; each option comes from a feature of that
    prefecture, with its code as value and its display name as text;
    every feature of the prefecture has an option; and no code is
    listed twice. *)
Theorem district_options_content
    (cd : gmap string CandidateRecord) (fs : list Feature) (kenCode : string) (s : State) :
  let sel := selectors (updateDistrictSelect cd fs kenCode s) in
  districtSelect_disabled sel = false ∧
  districtSelect_value sel = "" ∧
  prefectureSelect_value sel = prefectureSelect_value (selectors s) ∧
  (∀ v t, (v, t) ∈ districtSelect_options sel →
          ∃ f, f ∈ fs ∧ String_ (ken f) = kenCode ∧ v = String_ (kucode f) ∧
               t = getDistrictName cd (ken f) (ku f) (kucode f)) ∧
  (∀ f, f ∈ fs → String_ (ken f) = kenCode →
        ∃ t, (String_ (kucode f), t) ∈ districtSelect_options sel) ∧
  NoDup (d_code <$> districtMap cd fs kenCode) ∧
  length (districtSelect_options sel) = length (districtMap cd fs kenCode).
Proof.
  simpl. repeat split.
  - intros v t Hvt. apply list_elem_of_fmap in Hvt as (d & Hd & Hin).
    rewrite sort_by_ku_perm in Hin.
    apply districtMap_foldl_origin in Hin as [Hin|(f & Hf & Hk & ->)].
    + by apply elem_of_nil in Hin.
    + injection Hd as -> ->. eauto.
  - intros f Hf Hk.
    destruct (districtMap_foldl_covers cd kenCode fs [] f Hf Hk) as (d & Hc & Hd).
    exists (d_name d). apply list_elem_of_fmap. exists d. split; [by rewrite Hc|].
    by rewrite sort_by_ku_perm.
  - apply districtMap_foldl_NoDup. constructor.
  - by rewrite length_fmap, sort_by_ku_perm.
Qed.

Lemma district_options_content_witness :
  ∃ t, (String_ (kucode tokyo2), t) ∈
       districtSelect_options
         (selectors (updateDistrictSelect example_candidates example_features "13"
                                          example_initial)).
Proof.
  destruct (district_options_content example_candidates example_features "13"
              example_initial) as (_ & _ & _ & _ & H & _).
  apply (H tokyo2).
  - apply list_elem_of_In. simpl. auto.
  - reflexivity.
Defined.

(** ** Choosing a prefecture *)

Lemma prefectureBounds_absent (fs : list Feature) (k : string) :
  (∀ f, f ∈ fs → String_ (ken f) ≠ k) → prefectureBounds fs !! k = None.
Proof.
  intros Hno. unfold prefectureBounds, calculateBounds. simpl.
  rewrite indexed_bounds_lookup.
  by rewrite (proj2 (filter_nil_iff ken fs k) Hno).
Qed.

Lemma districtMap_absent (cd : gmap string CandidateRecord) (fs : list Feature) (k : string) :
  (∀ f, f ∈ fs → String_ (ken f) ≠ k) → districtMap cd fs k = [].
Proof.
  intros Hno. destruct (districtMap cd fs k) as [|d l] eqn:Hl; [done|].
  assert (d ∈ districtMap cd fs k) as Hd by (rewrite Hl; apply elem_of_cons; by left).
  apply districtMap_foldl_origin in Hd as [Hd|(f & Hf & Hk & _)].
  - by apply elem_of_nil in Hd.
  - by destruct (Hno f Hf).
Qed.

(** X8. Choosing a prefecture that no feature belongs to makes no call
    on the map and records no zoomed prefecture; all it changes is the
    dropdowns: the district dropdown is enabled and empty. *)
Theorem prefecture_without_features
    (cd : gmap string CandidateRecord) (fs : list Feature) (kenCode : string) (s : State) :
  kenCode ≠ "" → (∀ f, f ∈ fs → String_ (ken f) ≠ kenCode) →
  step cd fs s (PrefectureChange kenCode)
  = with_selectors (mkSelectors kenCode [] false "") s.
Proof.
  intros Hk Hno. simpl. unfold prefecture_change.
  rewrite bool_decide_eq_false_2 by done.
  unfold zoomToPrefecture, updateDistrictSelect. simpl.
  by rewrite (prefectureBounds_absent fs kenCode Hno), (districtMap_absent cd fs kenCode Hno).
Qed.

Lemma prefecture_without_features_witness :
  step example_candidates example_features example_initial (PrefectureChange "47")
  = with_selectors (mkSelectors "47" [] false "") example_initial.
Proof.
  apply (prefecture_without_features example_candidates example_features "47").
  - discriminate.
  - intros f Hf. apply list_elem_of_In in Hf. simpl in Hf.
    destruct Hf as [<-|[<-|[<-|[]]]]; discriminate.
Defined.

(** X9. Choosing a prefecture does not touch the selection: the layer
    styles, the drawing order, the selected layer and the sidebar stay
    as they were, and the prefecture dropdown holds the chosen value.
    When the prefecture has a feature with a vertex, the view is fitted
    to its stored bounds, which are set and contain that feature, the
    value is recorded as the zoomed prefecture and the district dropdown
    is enabled and filled anew.  When the bounds stored for the
    prefecture are unset, the fit throws: the call is made, but the
    zoomed prefecture and the district dropdown stay as they were. *)
Theorem prefecture_change_keeps_selection
    (cd : gmap string CandidateRecord) (fs : list Feature) (kenCode : string) (s : State) :
  kenCode ≠ "" →
  let s' := step cd fs s (PrefectureChange kenCode) in
  layerStyles s' = layerStyles s ∧
  paneOrder s' = paneOrder s ∧
  selectedLayer s' = selectedLayer s ∧
  sidebar s' = sidebar s ∧
  prefectureSelect_value (selectors s') = kenCode ∧
  (∀ f, f ∈ fs → String_ (ken f) = kenCode → geometry f ≠ [] →
        ∃ c, prefectureBounds fs !! kenCode = Some (Some c) ∧
             within (getBounds f) (Some c) ∧
             currentPrefecture s' = VStr kenCode ∧
             mapCalls s' = fitBounds (Some c) (50, 50) 10 :: mapCalls s ∧
             viewport s' = fitBounds (Some c) (50, 50) 10 ∧
             districtSelect_disabled (selectors s') = false ∧
             districtSelect_value (selectors s') = "") ∧
  (prefectureBounds fs !! kenCode = Some None →
        currentPrefecture s' = currentPrefecture s ∧
        mapCalls s' = fitBounds None (50, 50) 10 :: mapCalls s ∧
        viewport s' = viewport s ∧
        districtSelect_options (selectors s') = districtSelect_options (selectors s) ∧
        districtSelect_disabled (selectors s') = districtSelect_disabled (selectors s) ∧
        districtSelect_value (selectors s') = districtSelect_value (selectors s)).
Proof.
  intros Hk. simpl. unfold prefecture_change.
  rewrite bool_decide_eq_false_2 by done.
  unfold zoomToPrefecture, map_fitBounds. simpl.
  split; [by destruct (prefectureBounds fs !! kenCode) as [[c|]|]|].
  split; [by destruct (prefectureBounds fs !! kenCode) as [[c|]|]|].
  split; [by destruct (prefectureBounds fs !! kenCode) as [[c|]|]|].
  split; [by destruct (prefectureBounds fs !! kenCode) as [[c|]|]|].
  split; [by destruct (prefectureBounds fs !! kenCode) as [[c|]|]|].
  split.
  - intros f Hf Hken Hg.
    destruct (prefectureBounds_set fs f Hf Hg) as (c & Hc & Hw).
    rewrite Hken in Hc. exists c. rewrite Hc. by simpl.
  - intros Hc. rewrite Hc. by simpl.
Qed.

Lemma prefecture_change_keeps_selection_witness :
  let s := step example_candidates example_features example_initial (LayerClick 2) in
  let s' := step example_candidates example_features s (PrefectureChange "13") in
  layerStyles s' = layerStyles s ∧
  paneOrder s' = paneOrder s ∧
  selectedLayer s' = selectedLayer s ∧
  sidebar s' = sidebar s ∧
  prefectureSelect_value (selectors s') = "13" ∧
  (∀ f, f ∈ example_features → String_ (ken f) = "13" → geometry f ≠ [] →
        ∃ c, prefectureBounds example_features !! "13" = Some (Some c) ∧
             within (getBounds f) (Some c) ∧
             currentPrefecture s' = VStr "13" ∧
             mapCalls s' = fitBounds (Some c) (50, 50) 10 :: mapCalls s ∧
             viewport s' = fitBounds (Some c) (50, 50) 10 ∧
             districtSelect_disabled (selectors s') = false ∧
             districtSelect_value (selectors s') = "") ∧
  (prefectureBounds example_features !! "13" = Some None →
        currentPrefecture s' = currentPrefecture s ∧
        mapCalls s' = fitBounds None (50, 50) 10 :: mapCalls s ∧
        viewport s' = viewport s ∧
        districtSelect_options (selectors s') = districtSelect_options (selectors s) ∧
        districtSelect_disabled (selectors s') = districtSelect_disabled (selectors s) ∧
        districtSelect_value (selectors s') = districtSelect_value (selectors s)).
Proof.
  apply (prefecture_change_keeps_selection example_candidates example_features "13").
  discriminate.
Defined.

(** X10. Choosing the blank entry of the prefecture dropdown does what
    the reset control does. *)
Theorem blank_prefecture_is_reset
    (cd : gmap string CandidateRecord) (fs : list Feature) (s : State) :
  step cd fs s (PrefectureChange "") = step cd fs s ResetClick.
Proof.
  simpl. unfold prefecture_change. rewrite bool_decide_eq_true_2 by done.
  by rewrite !resetView_spec.
Qed.

(** ** Choosing a district *)

Lemma targetLayer_None (fs : list Feature) (v : string) :
  (∀ f, f ∈ fs → kucode f ≠ VStr v) → targetLayer fs v = None.
Proof.
  intros Hno. destruct (targetLayer fs v) as [i|] eqn:Ht; [|done].
  destruct (targetLayer_Some fs v i Ht) as (f & Hf & Hk).
  destruct (Hno f); [by eapply list_elem_of_lookup_2 | done].
Qed.

Lemma targetLayer_is_Some (fs : list Feature) (v : string) (f : Feature) :
  f ∈ fs → kucode f = VStr v → is_Some (targetLayer fs v).
Proof.
  unfold targetLayer.
  induction fs as [|x fs IH] using rev_ind; intros Hf Hk.
  - by apply elem_of_nil in Hf.
  - rewrite imap_app, foldl_app. simpl.
    case_bool_decide as Hx; [by eexists|].
    apply IH; [|done].
    apply elem_of_app in Hf as [Hf|Hf]; [done|].
    apply list_elem_of_singleton in Hf as ->. done.
Qed.

Lemma targetLayer_last (fs : list Feature) (v : string) (i j : nat) (f : Feature) :
  targetLayer fs v = Some i → (i < j)%nat → fs !! j = Some f → kucode f ≠ VStr v.
Proof.
  unfold targetLayer. revert i j f.
  induction fs as [|x fs IH] using rev_ind; intros i j f; simpl; [discriminate|].
  rewrite imap_app, foldl_app. simpl.
  case_bool_decide as Hx.
  - intros [= <-] Hlt Hj. rewrite Nat.add_0_r in Hlt.
    apply lookup_lt_Some in Hj. rewrite length_app in Hj. simpl in Hj. lia.
  - intros Hi Hlt Hj.
    destruct (decide (j < length fs)%nat) as [Hjl|Hjl].
    + rewrite lookup_app_l in Hj by done. by eapply IH.
    + pose proof (lookup_lt_Some _ _ _ Hj) as Hlen.
      rewrite length_app in Hlen. simpl in Hlen.
      assert (j = length fs) as -> by lia.
      rewrite list_lookup_middle in Hj by done. by injection Hj as <-.
Qed.

(** X11. A dropdown value that no feature carries as its (string) code
    selects nothing: [selectDistrictByCode] leaves the whole state as it
    is, so the change only records the dropdown value.  A code stored as
    a number in the features is such a value. *)
Theorem unknown_code_selects_nothing
    (cd : gmap string CandidateRecord) (fs : list Feature) (v : string) (s : State) :
  (∀ f, f ∈ fs → kucode f ≠ VStr v) →
  selectDistrictByCode cd fs v s = s ∧
  step cd fs s (DistrictChange v)
  = with_selectors (mkSelectors (prefectureSelect_value (selectors s))
                                (districtSelect_options (selectors s))
                                (districtSelect_disabled (selectors s)) v) s.
Proof.
  intros Hno. pose proof (targetLayer_None fs v Hno) as Ht.
  split.
  - unfold selectDistrictByCode. by rewrite Ht.
  - simpl. unfold district_change, selectDistrictByCode. rewrite Ht.
    by case_bool_decide.
Qed.

Lemma unknown_code_selects_nothing_witness :
  let fs := [mkFeature (VNum 13) 1 (VNum 13001) []] in
  let s := initial_state example_candidates fs markup_sidebar markup_selectors in
  selectDistrictByCode example_candidates fs "13001" s = s ∧
  step example_candidates fs s (DistrictChange "13001")
  = with_selectors (mkSelectors "" [] true "13001") s.
Proof.
  intros fs s.
  apply (unknown_code_selects_nothing example_candidates fs "13001" s).
  intros f Hf. apply list_elem_of_In in Hf. simpl in Hf.
  destruct Hf as [<-|[]]. discriminate.
Defined.

(** X12. The dropdown lookup resolves a value to a layer exactly when
    that layer carries the value as its string code and no later layer
    does: among several layers with the same code the last one wins. *)
Theorem targetLayer_is_last_match (fs : list Feature) (v : string) (i : nat) :
  targetLayer fs v = Some i ↔
  (∃ f, fs !! i = Some f ∧ kucode f = VStr v) ∧
  (∀ j f, (i < j)%nat → fs !! j = Some f → kucode f ≠ VStr v).
Proof.
  split.
  - intros Ht. split; [by apply targetLayer_Some|].
    intros j f. by apply targetLayer_last.
  - intros [(f & Hf & Hk) Hlast].
    destruct (targetLayer_is_Some fs v f) as [i' Hi']; [by eapply list_elem_of_lookup_2 | done|].
    destruct (targetLayer_Some fs v i' Hi') as (f' & Hf' & Hk').
    destruct (lt_eq_lt_dec i i') as [[Hlt | ->] | Hgt]; [|done|].
    + by destruct (Hlast i' f' Hlt Hf').
    + by destruct (targetLayer_last fs v i' i f Hi' Hgt Hf).
Qed.

Lemma targetLayer_is_last_match_witness :
  let fs := [tokyo1; tokyo2; tokyo1] in
  targetLayer fs "13001" = Some 2%nat.
Proof.
  intros fs. apply (proj2 (targetLayer_is_last_match fs "13001" 2)).
  split.
  - exists tokyo1. split; reflexivity.
  - intros j f Hlt Hj. apply lookup_lt_Some in Hj. simpl in Hj. lia.
Defined.

(** X13. A click on a layer makes no call on the map when the value of
    its prefecture is the one recorded; otherwise it makes exactly one:
    a fit, with padding 50 and zoom ceiling 10, to the bounds stored for
    the prefecture, which contain the clicked district. *)
Theorem click_fits_prefecture_once
    (cd : gmap string CandidateRecord) (fs : list Feature) (i : nat) (f : Feature) (s : State) :
  fs !! i = Some f →
  let s' := step cd fs s (LayerClick i) in
  (currentPrefecture s = ken f → mapCalls s' = mapCalls s) ∧
  (currentPrefecture s ≠ ken f →
   ∃ b, prefectureBounds fs !! String_ (ken f) = Some b ∧
        within (getBounds f) b ∧
        mapCalls s' = fitBounds b (50, 50) 10 :: mapCalls s).
Proof.
  intros Hf. simpl. rewrite (handleDistrictClick_spec cd fs i f s Hf). simpl.
  split.
  - intros Hc. by rewrite bool_decide_eq_false_2 by (intros Hne; by apply Hne).
  - intros Hc. rewrite bool_decide_eq_true_2 by done.
    destruct (prefectureBounds_within fs f) as (b & Hb & Hw).
    { by eapply list_elem_of_lookup_2. }
    exists b. rewrite zoomToPrefecture_cases, Hb. by destruct b.
Qed.

Lemma click_fits_prefecture_once_witness :
  let s := step example_candidates example_features example_initial (LayerClick 0) in
  let s' := step example_candidates example_features s (LayerClick 1) in
  (currentPrefecture s = ken tokyo2 → mapCalls s' = mapCalls s) ∧
  (currentPrefecture s ≠ ken tokyo2 →
   ∃ b, prefectureBounds example_features !! String_ (ken tokyo2) = Some b ∧
        within (getBounds tokyo2) b ∧
        mapCalls s' = fitBounds b (50, 50) 10 :: mapCalls s).
Proof.
  apply (click_fits_prefecture_once example_candidates example_features 1 tokyo2).
  reflexivity.
Defined.

(** ** Hovering *)

Lemma insert_after_alter (g : PathStyle → PathStyle) (x : PathStyle) (i : nat)
    (l : list PathStyle) :
  <[i := x]> (alter g i l) = <[i := x]> l.
Proof.
  apply list_eq. intros k. destruct (decide (i = k)) as [->|Hne].
  - destruct (decide (k < length l)%nat) as [Hk|Hk].
    + rewrite !list_lookup_insert_eq; [done | done | by rewrite length_alter].
    + rewrite !list_insert_ge; [|lia | rewrite length_alter; lia].
      rewrite list_lookup_alter_eq.
      by rewrite (proj2 (lookup_ge_None l k)) by lia.
  - by rewrite !list_lookup_insert_ne, list_lookup_alter_ne.
Qed.

(** X14. Moving the pointer over a layer that is not the selected one
    and out again puts that layer in the style of its feature and
    changes no other layer, nor the selection, the sidebar, the
    dropdowns, the zoomed prefecture or the view; a layer that had the
    style of its feature gets it back. *)
Theorem hover_and_leave_restores
    (cd : gmap string CandidateRecord) (fs : list Feature) (s : State) (i : nat) (f : Feature) :
  fs !! i = Some f → selectedLayer s ≠ Some i →
  let s' := step cd fs (step cd fs s (LayerMouseOver i)) (LayerMouseOut i) in
  layerStyles s' = <[i := getFeatureStyle cd f]> (layerStyles s) ∧
  (layerStyles s !! i = Some (getFeatureStyle cd f) → layerStyles s' = layerStyles s) ∧
  selectedLayer s' = selectedLayer s ∧
  sidebar s' = sidebar s ∧
  selectors s' = selectors s ∧
  currentPrefecture s' = currentPrefecture s ∧
  mapCalls s' = mapCalls s.
Proof.
  intros Hf Hsel. simpl.
  rewrite !bool_decide_eq_true_2 by (by eapply lookup_lt_Some).
  unfold handleMouseOut, handleMouseOver. simpl.
  rewrite bool_decide_eq_false_2 by done. simpl.
  unfold reset_at. rewrite Hf, insert_after_alter.
  repeat split. intros Hi. by apply list_insert_id.
Qed.

Lemma hover_and_leave_restores_witness :
  let s' := step example_candidates example_features
                 (step example_candidates example_features example_initial (LayerMouseOver 1))
                 (LayerMouseOut 1) in
  layerStyles s' = <[1%nat := getFeatureStyle example_candidates tokyo2]>
                     (layerStyles example_initial) ∧
  (layerStyles example_initial !! 1%nat = Some (getFeatureStyle example_candidates tokyo2) →
   layerStyles s' = layerStyles example_initial) ∧
  selectedLayer s' = selectedLayer example_initial ∧
  sidebar s' = sidebar example_initial ∧
  selectors s' = selectors example_initial ∧
  currentPrefecture s' = currentPrefecture example_initial ∧
  mapCalls s' = mapCalls example_initial.
Proof.
  apply (hover_and_leave_restores example_candidates example_features example_initial
           1 tokyo2).
  - reflexivity.
  - discriminate.
Defined.

(** X15. Moving the pointer over the selected layer and out again leaves
    it selected but drawn with the hover style (weight 2): the mouse-out
    handler skips the selected layer, so the selection style (weight 3)
    is not put back. *)
Theorem hover_over_selected_drops_highlight
    (cd : gmap string CandidateRecord) (fs : list Feature) (s : State) (i : nat) (f : Feature) :
  reachable cd fs s → fs !! i = Some f → selectedLayer s = Some i →
  let s' := step cd fs (step cd fs s (LayerMouseOver i)) (LayerMouseOut i) in
  selectedLayer s' = Some i ∧
  layerStyles s' !! i
    = Some (mkStyle (fillColor (getFeatureStyle cd f)) 2 1 "#ffffff" 0.85%Q) ∧
  (∀ k st, layerStyles s' !! k = Some st → ¬ highlighted st) ∧
  sidebar s' = sidebar s.
Proof.
  intros Hr Hf Hsel.
  destruct (reachable_consistent cd fs s Hr) as (Hlen & Hfill & Honly).
  simpl. rewrite !bool_decide_eq_true_2 by (by eapply lookup_lt_Some).
  unfold handleMouseOut, handleMouseOver. simpl.
  rewrite bool_decide_eq_true_2 by done. simpl.
  assert (i < length (layerStyles s))%nat as Hi
    by (rewrite Hlen; by eapply lookup_lt_Some).
  destruct (lookup_lt_is_Some_2 _ _ Hi) as [st Hst].
  repeat split; try done.
  - rewrite list_lookup_alter_eq, Hst. simpl. unfold restyle.
    by rewrite (Hfill i st f Hst Hf).
  - intros k st' Hk Hh.
    destruct (alter_restyle_lookup _ _ _ _ _ _ _ _ Hk) as [[Hne Hk']|(-> & st0 & Hk' & ->)].
    + rewrite Hsel in Honly. pose proof (Honly k st' Hk' Hh) as [= ->]. done.
    + discriminate Hh.
Qed.

Lemma hover_over_selected_drops_highlight_witness :
  let s := step example_candidates example_features example_initial (LayerClick 0) in
  let s' := step example_candidates example_features
                 (step example_candidates example_features s (LayerMouseOver 0))
                 (LayerMouseOut 0) in
  selectedLayer s' = Some 0%nat ∧
  layerStyles s' !! 0%nat
    = Some (mkStyle (fillColor (getFeatureStyle example_candidates tokyo1))
                    2 1 "#ffffff" 0.85%Q) ∧
  (∀ k st, layerStyles s' !! k = Some st → ¬ highlighted st) ∧
  sidebar s' = sidebar s.
Proof.
  apply (hover_over_selected_drops_highlight example_candidates example_features).
  - apply reachable_step. apply reachable_initial.
  - reflexivity.
  - reflexivity.
Defined.

(** ** Closing and resetting *)

(** X16. Closing the sidebar twice is closing it once; closing it after
    a reset changes nothing; resetting after closing is resetting; and
    a second reset changes nothing a user can tell. *)
Theorem close_and_reset_compose
    (cd : gmap string CandidateRecord) (fs : list Feature) (s : State) :
  closeSidebar cd fs (closeSidebar cd fs s) = closeSidebar cd fs s ∧
  closeSidebar cd fs (resetView cd fs s) = resetView cd fs s ∧
  resetView cd fs (closeSidebar cd fs s) = resetView cd fs s ∧
  observe (resetView cd fs (resetView cd fs s)) = observe (resetView cd fs s).
Proof.
  rewrite !closeSidebar_spec, !resetView_spec. simpl.
  repeat split; reflexivity.
Qed.

(** ** Invariants of a session *)

Lemma run_invariant (cd : gmap string CandidateRecord) (fs : list Feature)
    (P : State → Prop) :
  (∀ s e, P s → P (step cd fs s e)) →
  ∀ es s, P s → P (run cd fs s es).
Proof.
  intros Hstep es. induction es as [|e es IH]; intros s Hs; simpl; [done|].
  by apply IH, Hstep.
Qed.

Lemma selectDistrictByCode_fields
    (cd : gmap string CandidateRecord) (fs : list Feature)
    (v : string) (i : nat) (f : Feature) (s : State) :
  targetLayer fs v = Some i → fs !! i = Some f →
  selectedLayer (selectDistrictByCode cd fs v s) = Some i ∧
  sidebar (selectDistrictByCode cd fs v s)
    = match getBounds f with
      | Some _ => mkSidebar (render_panel cd (ken f) (ku f) (kucode f)) true true
      | None => sidebar s
      end ∧
  mapCalls (selectDistrictByCode cd fs v s)
    = fitBounds (getBounds f) (50, 50) 12 :: mapCalls s ∧
  currentPrefecture (selectDistrictByCode cd fs v s) = currentPrefecture s ∧
  selectors (selectDistrictByCode cd fs v s) = selectors s.
Proof.
  intros Ht Hf. unfold selectDistrictByCode, map_fitBounds. rewrite Ht, Hf.
  destruct s as [l o c p [j|] sb dd]; simpl; [case_bool_decide|];
    by destruct (getBounds f).
Qed.

Lemma panel_in_step_closed (cd : gmap string CandidateRecord) (fs : list Feature)
    (s : State) :
  sidebar_open (sidebar s) = false → overlay_visible (sidebar s) = false →
  selectedLayer s = None → panel_in_step cd fs s.
Proof.
  intros Ho Hv Hs. unfold panel_in_step. rewrite Ho, Hv, Hs.
  split; [done|]. split; done.
Qed.

Lemma panel_in_step_selected (cd : gmap string CandidateRecord) (fs : list Feature)
    (s : State) (i : nat) (f : Feature) :
  fs !! i = Some f → selectedLayer s = Some i →
  sidebar s = mkSidebar (render_panel cd (ken f) (ku f) (kucode f)) true true →
  panel_in_step cd fs s.
Proof.
  intros Hf Hs Hb. unfold panel_in_step. rewrite Hs, Hb. simpl.
  split; [done|]. split; [by eauto|].
  intros ? [= <-]. eauto.
Qed.

Lemma panel_in_step_frame (cd : gmap string CandidateRecord) (fs : list Feature)
    (s s' : State) :
  sidebar s' = sidebar s → selectedLayer s' = selectedLayer s →
  panel_in_step cd fs s → panel_in_step cd fs s'.
Proof.
  unfold panel_in_step. by intros -> ->.
Qed.

(** The dropdown choice of a layer without a vertex: the layer is
    selected, the sidebar is left as it was. *)
Lemma panel_in_step_undrawn (cd : gmap string CandidateRecord) (fs : list Feature)
    (s s' : State) (i : nat) (f : Feature) :
  fs !! i = Some f → geometry f = [] →
  sidebar s' = sidebar s → selectedLayer s' = Some i →
  panel_in_step cd fs s → panel_in_step cd fs s'.
Proof.
  unfold panel_in_step. intros Hf Hg -> -> (Hv & _ & _).
  split; [done|]. split; [by eauto|].
  intros ? [= <-]. exists f. split; [done|]. by intros [].
Qed.

Lemma panel_in_step_step (cd : gmap string CandidateRecord) (fs : list Feature)
    (s : State) (e : Event) :
  panel_in_step cd fs s → panel_in_step cd fs (step cd fs s e).
Proof.
  intros Hs. destruct e as [i|i|i|v|v| | | |key]; simpl.
  - by case_bool_decide.
  - case_bool_decide; [|done]. unfold handleMouseOut. by case_bool_decide.
  - destruct (fs !! i) as [f|] eqn:Hf.
    + rewrite (handleDistrictClick_spec cd fs i f s Hf).
      case_bool_decide; [|by apply (panel_in_step_selected cd fs _ i f)].
      destruct (zoomToPrefecture_frame fs (ken f) s) as (_ & _ & Hsel & Hsb & _).
      destruct (zoomToPrefecture fs (ken f) s) as [z|z]; simpl in *.
      * by apply (panel_in_step_selected cd fs _ i f).
      * by apply (panel_in_step_frame cd fs s).
    + unfold handleDistrictClick. by rewrite Hf.
  - unfold prefecture_change. case_bool_decide.
    + rewrite resetView_spec. by apply panel_in_step_closed.
    + set (s0 := with_selectors _ s).
      destruct (zoomToPrefecture_frame fs (VStr v) s0) as (_ & _ & Hsel & Hsb & _).
      destruct (zoomToPrefecture fs (VStr v) s0) as [z|z]; simpl in *;
        by apply (panel_in_step_frame cd fs s).
  - unfold district_change. case_bool_decide; [done|].
    destruct (targetLayer fs v) as [i|] eqn:Ht.
    + destruct (targetLayer_Some fs v i Ht) as (f & Hf & _).
      edestruct (selectDistrictByCode_fields cd fs v i f) as (H1 & H2 & _); [done..|].
      destruct (getBounds f) as [c|] eqn:Hb.
      * by eapply (panel_in_step_selected cd fs _ i f).
      * apply getBounds_unset in Hb.
        by eapply (panel_in_step_undrawn cd fs s _ i f).
    + unfold selectDistrictByCode. by rewrite Ht.
  - rewrite resetView_spec. by apply panel_in_step_closed.
  - rewrite closeSidebar_spec. by apply panel_in_step_closed.
  - rewrite closeSidebar_spec. by apply panel_in_step_closed.
  - unfold keydown. case_bool_decide; [|done].
    rewrite closeSidebar_spec. by apply panel_in_step_closed.
Qed.

(** X17. On a page whose sidebar starts closed, after any sequence of
    events the overlay is visible exactly when the sidebar is open, the
    sidebar is open only when a layer is selected, and a selected layer
    that has a vertex has the sidebar open with the panel showing the
    name, outlook and candidates of its district.  (A dropdown choice
    that resolves to a layer without a vertex selects the layer and
    then throws in the fit, so the sidebar is left as it was.) *)
Theorem panel_follows_selection
    (cd : gmap string CandidateRecord) (fs : list Feature)
    (sb : Sidebar) (sel : Selectors) (es : list Event) :
  sidebar_open sb = false → overlay_visible sb = false →
  panel_in_step cd fs (run cd fs (initial_state cd fs sb sel) es).
Proof.
  intros Ho Hv. apply run_invariant.
  - apply panel_in_step_step.
  - by apply panel_in_step_closed.
Qed.

Lemma panel_follows_selection_witness :
  panel_in_step example_candidates example_features
    (run example_candidates example_features example_initial
         [PrefectureChange "13"; DistrictChange "13002"; LayerMouseOver 0; LayerClick 2]).
Proof.
  apply (panel_follows_selection example_candidates example_features
           markup_sidebar markup_selectors).
  - reflexivity.
  - reflexivity.
Defined.

Lemma map_calls_step (cd : gmap string CandidateRecord) (fs : list Feature)
    (s : State) (e : Event) :
  (∀ c, c ∈ mapCalls s → expected_call fs c) ∧
  (currentPrefecture s = VNull ∨
   is_Some (prefectureBounds fs !! String_ (currentPrefecture s))) →
  (∀ c, c ∈ mapCalls (step cd fs s e) → expected_call fs c) ∧
  (currentPrefecture (step cd fs s e) = VNull ∨
   is_Some (prefectureBounds fs !! String_ (currentPrefecture (step cd fs s e)))).
Proof.
  intros Hs.
  assert (∀ k s0,
            (∀ c, c ∈ mapCalls s0 → expected_call fs c) ∧
            (currentPrefecture s0 = VNull ∨
             is_Some (prefectureBounds fs !! String_ (currentPrefecture s0))) →
            (∀ c, c ∈ mapCalls (state_of (zoomToPrefecture fs k s0)) → expected_call fs c) ∧
            (currentPrefecture (state_of (zoomToPrefecture fs k s0)) = VNull ∨
             is_Some (prefectureBounds fs
                        !! String_ (currentPrefecture (state_of (zoomToPrefecture fs k s0))))))
    as Hzoom.
  { intros k s0 [Hc Hp]. rewrite zoomToPrefecture_cases.
    destruct (prefectureBounds fs !! String_ k) as [[b|]|] eqn:Hb; [| |done].
    - simpl. split; [|right; by rewrite Hb].
      intros c Hin. apply elem_of_cons in Hin as [->|Hin]; [|by apply Hc].
      right. left. eauto.
    - simpl. split; [|done].
      intros c Hin. apply elem_of_cons in Hin as [->|Hin]; [|by apply Hc].
      right. left. eauto. }
  assert ((∀ c, c ∈ setView JAPAN_CENTER JAPAN_ZOOM :: mapCalls s → expected_call fs c))
    as Hreset.
  { intros c Hin. apply elem_of_cons in Hin as [->|Hin]; [by left | by apply Hs]. }
  destruct e as [i|i|i|v|v| | | |key]; unfold step.
  - by case_bool_decide.
  - case_bool_decide; [|done]. unfold handleMouseOut. by case_bool_decide.
  - destruct (fs !! i) as [f|] eqn:Hf.
    + rewrite (handleDistrictClick_spec cd fs i f s Hf).
      case_bool_decide; [|done].
      specialize (Hzoom (ken f) s Hs).
      by destruct (zoomToPrefecture fs (ken f) s) as [z|z].
    + unfold handleDistrictClick. by rewrite Hf.
  - unfold prefecture_change. case_bool_decide.
    + rewrite resetView_spec. simpl. split; [done | by left].
    + set (s0 := with_selectors _ s). specialize (Hzoom (VStr v) s0 Hs).
      by destruct (zoomToPrefecture fs (VStr v) s0) as [z|z].
  - unfold district_change. case_bool_decide; [done|].
    destruct (targetLayer fs v) as [i|] eqn:Ht.
    + destruct (targetLayer_Some fs v i Ht) as (f & Hf & _).
      edestruct (selectDistrictByCode_fields cd fs v i f) as (_ & _ & H3 & H4 & _); [done..|].
      rewrite H3, H4. simpl. split; [|apply Hs].
      intros c Hin. apply elem_of_cons in Hin as [->|Hin]; [|by apply Hs].
      right. right. exists f. split; [by eapply list_elem_of_lookup_2 | done].
    + unfold selectDistrictByCode. by rewrite Ht.
  - rewrite resetView_spec. simpl. split; [done | by left].
  - rewrite closeSidebar_spec. by simpl.
  - rewrite closeSidebar_spec. by simpl.
  - unfold keydown. case_bool_decide; [|done].
    rewrite closeSidebar_spec. by simpl.
Qed.

(** X18. Every call the script makes on the map during a session is the
    whole-country view, a fit (padding 50, zoom ceiling 10) to the
    bounds stored for a prefecture, or a fit (padding 50, zoom ceiling
    12) to the bounds of a layer; and the zoomed prefecture is [null] or
    a value for which bounds are stored. *)
Theorem map_calls_are_expected
    (cd : gmap string CandidateRecord) (fs : list Feature)
    (sb : Sidebar) (sel : Selectors) (es : list Event) :
  let s := run cd fs (initial_state cd fs sb sel) es in
  (∀ c, c ∈ mapCalls s → expected_call fs c) ∧
  (currentPrefecture s = VNull ∨
   is_Some (prefectureBounds fs !! String_ (currentPrefecture s))).
Proof.
  apply (run_invariant cd fs
           (λ s, (∀ c, c ∈ mapCalls s → expected_call fs c) ∧
                 (currentPrefecture s = VNull ∨
                  is_Some (prefectureBounds fs !! String_ (currentPrefecture s))))).
  - apply map_calls_step.
  - simpl. split; [|by left]. intros c Hc. by apply elem_of_nil in Hc.
Qed.

Lemma map_calls_are_expected_witness :
  expected_call example_features (fitBounds (getBounds tokyo2) (50, 50) 12).
Proof.
  apply (proj1 (map_calls_are_expected example_candidates example_features
                  markup_sidebar markup_selectors
                  [PrefectureChange "13"; DistrictChange "13002"])).
  vm_compute. apply list_elem_of_here.
Defined.

(** ** Loading, continued *)

(** X19. Whatever the two sources do, the handler creates the map and
    wires the dropdowns and the listeners; an error is logged exactly
    when a source fails to load, and the district layer exists exactly
    when none does. *)
Theorem load_outcome (env : Environment) :
  let p := DOMContentLoaded env blank_page in
  map_created p = true ∧
  selectors_wired p = true ∧
  listeners_wired p = true ∧
  (console_error p = [] ↔ ¬ load_fails env) ∧
  (is_Some (geojsonLayer p) ↔ ¬ load_fails env).
Proof.
  destruct env as [[|[|] [data|]] [fs|]]; simpl;
    repeat split; try done; try (by intros []); try (by intros [? ?]);
    try (intros H; by destruct H); eauto.
Qed.

(** X20. The candidate table is read first: when it loads it is kept
    even if the feature collection is missing, and when it does not load
    the feature collection is not indexed even if it is there (the
    table, the layer and both bounds tables stay empty). *)
Theorem candidates_are_loaded_first (env : Environment) :
  let p := DOMContentLoaded env blank_page in
  (∀ data, candidates_json env = FetchResponse true (Some data) →
           page_CANDIDATES_DATA p = data) ∧
  ((∀ data, candidates_json env ≠ FetchResponse true (Some data)) →
   page_CANDIDATES_DATA p = ∅ ∧ geojsonLayer p = None ∧
   page_prefectureBounds p = ∅ ∧ page_districtBounds p = ∅).
Proof.
  destruct env as [[|[|] [data|]] [fs|]]; simpl; split;
    try (intros ? [= <-]; reflexivity); try discriminate; try done;
    intros H; by destruct (H data).
Qed.

Lemma candidates_are_loaded_first_witness :
  page_CANDIDATES_DATA
    (DOMContentLoaded (mkEnvironment (FetchResponse true (Some example_candidates)) None)
                      blank_page)
  = example_candidates.
Proof.
  apply (proj1 (candidates_are_loaded_first
                  (mkEnvironment (FetchResponse true (Some example_candidates)) None))).
  reflexivity.
Defined.

(** ** Names *)

(** X21. When the candidate table has a record for a district's code,
    the tooltip of its layer, the title of its panel and the text of
    its dropdown option are all the name in that record. *)
Theorem record_name_is_shown_everywhere
    (cd : gmap string CandidateRecord) (fs : list Feature)
    (f : Feature) (d : CandidateRecord) :
  cd !! String_ (kucode f) = Some d →
  tooltip cd f = name d ∧
  districtName_textContent (render_panel cd (ken f) (ku f) (kucode f)) = name d ∧
  (∀ kenCode s t,
     (String_ (kucode f), t)
       ∈ districtSelect_options (selectors (updateDistrictSelect cd fs kenCode s)) →
     t = name d).
Proof.
  intros Hd. unfold tooltip, render_panel, getDistrictName. rewrite Hd. simpl.
  repeat split.
  intros kenCode s t Ht. apply list_elem_of_fmap in Ht as (e & He & Hin).
  rewrite sort_by_ku_perm in Hin.
  apply districtMap_foldl_origin in Hin as [Hin|(g & Hg & Hk & ->)].
  - by apply elem_of_nil in Hin.
  - simpl in He. injection He as Hv ->.
    unfold getDistrictName. by rewrite <- Hv, Hd.
Qed.

Lemma record_name_is_shown_everywhere_witness :
  tooltip example_candidates tokyo1 = "東京1区" ∧
  districtName_textContent
    (render_panel example_candidates (ken tokyo1) (ku tokyo1) (kucode tokyo1)) = "東京1区" ∧
  (∀ kenCode s t,
     (String_ (kucode tokyo1), t)
       ∈ districtSelect_options
           (selectors (updateDistrictSelect example_candidates example_features kenCode s)) →
     t = "東京1区").
Proof.
  apply (record_name_is_shown_everywhere example_candidates example_features tokyo1
           (mkRecord "東京1区" (VNum 4)
              (Some [mkCandidate "山田" "A党" "現職"; mkCandidate "鈴木" "B党" "新人"]))).
  reflexivity.
Defined.

(** ** Legend and swipe *)

(** X22. After a resize the legend is collapsed exactly when the window
    is at most 480 wide, whatever it was before; resizing twice is
    resizing once.  A click on the legend title changes nothing on a
    wider window and flips the legend on a small one, so two clicks
    leave it as it was.  On a small window the legend starts
    collapsed. *)
Theorem legend_follows_window_size (w : Window) (m : Mobile) (c : bool) (t : option Q) :
  legend_collapsed (handleResize w m) = bool_decide (innerWidth w ≤ 480) ∧
  handleResize w (handleResize w m) = handleResize w m ∧
  (480 < innerWidth w → legend_title_click w m = m) ∧
  (innerWidth w ≤ 480 →
   legend_collapsed (legend_title_click w m) = negb (legend_collapsed m) ∧
   legend_collapsed (setupMobileFeatures w c t) = true) ∧
  legend_title_click w (legend_title_click w m) = m.
Proof.
  unfold handleResize, legend_title_click, setupMobileFeatures, isMobileSize.
  destruct m as [lc tr sy cy dr]. simpl.
  destruct (Z.leb_spec (innerWidth w) 480) as [Hw|Hw];
    [rewrite bool_decide_eq_true_2 by done | rewrite bool_decide_eq_false_2 by lia];
    destruct lc; simpl; repeat split; intros; try done; try lia.
Qed.

Lemma legend_follows_window_size_witness :
  legend_title_click (mkWindow 1280 800) (mkMobile true None 0%Q 0%Q false)
  = mkMobile true None 0%Q 0%Q false.
Proof.
  apply (proj1 (proj2 (proj2 (legend_follows_window_size
                  (mkWindow 1280 800) (mkMobile true None 0%Q 0%Q false) false None)))).
  simpl. lia.
Defined.

Lemma above_threshold (d t : Q) : negb (Qle_bool d t) = true ↔ (t < d)%Q.
Proof.
  rewrite negb_true_iff. split.
  - intros H. apply Qnot_le_lt. intros Hle.
    apply Qle_bool_iff in Hle. congruence.
  - intros H. destruct (Qle_bool d t) eqn:Hle; [|done].
    apply Qle_bool_iff in Hle. by destruct (Qlt_not_le _ _ H).
Qed.

(** X23. A touch that starts outside the top 50 pixels of the sidebar
    and not on the sidebar itself is ignored, and without an accepted
    start the move and end handlers do nothing.  An accepted gesture
    always ends with the dragging flag and the inline transform
    cleared; on a window wider than 480 it never closes the sidebar. *)
Theorem swipe_guards
    (cd : gmap string CandidateRecord) (fs : list Feature)
    (w : Window) (m : Mobile) (s : State) (y top : Q) :
  ((top + 50 <= y)%Q → touchstart false y top m = m) ∧
  (isDragging m = false →
   touchmove w y m = m ∧ touchend cd fs w (m, s) = (m, s)) ∧
  (isDragging m = true →
   isDragging (touchend cd fs w (m, s)).1 = false ∧
   sidebar_transform (touchend cd fs w (m, s)).1 = None) ∧
  (480 < innerWidth w → (touchend cd fs w (m, s)).2 = s).
Proof.
  unfold touchstart, touchmove, touchend, isMobileSize.
  split; [|split; [|split]].
  - intros Hy. apply Qle_bool_iff in Hy. by rewrite Hy.
  - by intros ->.
  - by intros ->.
  - intros Hw. destruct (isDragging m); simpl; [|done].
    rewrite (proj2 (Z.leb_gt _ _)) by lia.
    by rewrite andb_false_r.
Qed.

Lemma swipe_guards_witness :
  let m := mkMobile false None 0%Q 0%Q false in
  touchmove (mkWindow 400 800) 300%Q m = m ∧
  touchend example_candidates example_features (mkWindow 400 800) (m, example_initial)
  = (m, example_initial).
Proof.
  intros m.
  apply (proj1 (proj2 (swipe_guards example_candidates example_features
                         (mkWindow 400 800) m example_initial 300%Q 0%Q))).
  reflexivity.
Defined.

(** X24. On a window at most 480 wide, a gesture that starts on the
    sidebar handle, moves and ends more than 100 pixels lower closes the
    sidebar as the close button does; one that ends at most 100 pixels
    lower leaves the page state as it is.  Either way the transform is
    cleared. *)
Theorem swipe_down_closes
    (cd : gmap string CandidateRecord) (fs : list Feature)
    (w : Window) (m : Mobile) (s : State) (on_sidebar : bool) (y0 y1 top : Q) :
  innerWidth w ≤ 480 →
  on_sidebar = true ∨ (y0 < top + 50)%Q →
  let end_ := touchend cd fs w (touchmove w y1 (touchstart on_sidebar y0 top m), s) in
  sidebar_transform end_.1 = None ∧
  isDragging end_.1 = false ∧
  ((100 < y1 - y0)%Q → end_.2 = closeSidebar cd fs s) ∧
  ((y1 - y0 <= 100)%Q → end_.2 = s).
Proof.
  intros Hw Hstart.
  assert (on_sidebar || negb (Qle_bool (top + 50) y0) = true) as Hacc.
  { destruct Hstart as [->|Hlt]; [done|].
    apply orb_true_iff. right. by apply above_threshold. }
  unfold touchstart, touchmove, touchend, isMobileSize. rewrite Hacc. simpl.
  rewrite (proj2 (Z.leb_le _ _) Hw).
  split; [done|]. split; [done|]. split.
  - intros Hd. apply above_threshold in Hd. by rewrite Hd.
  - intros Hd. apply Qle_bool_iff in Hd. by rewrite Hd.
Qed.

Lemma swipe_down_closes_witness :
  let s := step example_candidates example_features example_initial (LayerClick 0) in
  let end_ := touchend example_candidates example_features (mkWindow 400 800)
                (touchmove (mkWindow 400 800) 520%Q
                   (touchstart true 400%Q 380%Q (mkMobile true None 0%Q 0%Q false)), s) in
  sidebar_transform end_.1 = None ∧
  isDragging end_.1 = false ∧
  ((100 < 520 - 400)%Q → end_.2 = closeSidebar example_candidates example_features s) ∧
  ((520 - 400 <= 100)%Q → end_.2 = s).
Proof.
  apply (swipe_down_closes example_candidates example_features (mkWindow 400 800)).
  - simpl. lia.
  - left. reflexivity.
Defined.

(** X25. The end handler measures from the last position any move
    reported, which a new touch does not reset.  So a tap on the handle
    with no move closes the sidebar on a small window when the previous
    gesture ended more than 100 pixels below the tap; the first tap
    after setup, at a non-negative position, never does. *)
Theorem tap_uses_last_move
    (cd : gmap string CandidateRecord) (fs : list Feature)
    (w w0 : Window) (m : Mobile) (s : State) (y top : Q) (c : bool) (t : option Q) :
  (innerWidth w ≤ 480 → (100 < currentY m - y)%Q →
   (touchend cd fs w (touchstart true y top m, s)).2 = closeSidebar cd fs s) ∧
  ((0 <= y)%Q →
   (touchend cd fs w (touchstart true y top (setupMobileFeatures w0 c t), s)).2 = s).
Proof.
  unfold touchstart, touchend, setupMobileFeatures, isMobileSize. simpl. split.
  - intros Hw Hd. apply above_threshold in Hd. rewrite Hd.
    by rewrite (proj2 (Z.leb_le _ _) Hw).
  - intros Hy.
    assert (Qle_bool (0 - y) 100 = true) as ->; [|done].
    apply Qle_bool_iff. unfold Qle, Qminus, Qplus, Qopp in *. simpl in *. lia.
Qed.

Lemma tap_uses_last_move_witness :
  let s := step example_candidates example_features example_initial (LayerClick 0) in
  (touchend example_candidates example_features (mkWindow 400 800)
     (touchstart true 200%Q 190%Q (mkMobile true None 300%Q 350%Q false), s)).2
  = closeSidebar example_candidates example_features s.
Proof.
  intros s.
  apply (proj1 (tap_uses_last_move example_candidates example_features
                  (mkWindow 400 800) (mkWindow 400 800)
                  (mkMobile true None 300%Q 350%Q false) s 200%Q 190%Q true None)).
  - simpl. lia.
  - reflexivity.
Defined.
